(** * Stock-Analysis-Agent: a shallow embedding of [main.py] and [RAG.py]

    The two scripts are integration glue around third-party collaborators
    (yfinance, python-dotenv, llama_index, llama_agents).  What the scripts
    themselves decide is modelled here as executable definitions:

    - the six capability functions of [main.py], with their [try]/[except]
      blocks, their [logging.error] emissions and the strings they build;
    - the credential check both scripts run at import time;
    - [load_and_index_data], [setup_query_engines_and_tools] and the query
      loop of [RAG.py];
    - the tool registrations of [main.py].

    The collaborators are the inputs of the model: the market-data source is a
    record of lookups that either return a value or raise, the persisted
    indexes are a finite map from directory paths, the coordinator is a
    function from a request to an answer or a raised exception. *)

From Stdlib Require Import ZArith String Ascii List Bool Lia.
From Stdlib Require Import DecimalString.
From Stdlib Require Import Floats.SpecFloat.
From stdpp Require Import base option list strings gmap.

Local Open Scope Z_scope.

(** ** Python values, exceptions and outcomes *)

(** A Python [float] (and numpy's [float64], which formats like it) is an IEEE
    binary64 number: [S754_finite s m e] is [(-1)^s * m * 2^e]. *)
Abbreviation float := spec_float.

Definition prec : Z := 53.
Definition emax : Z := 1024.

(** The classes of the exceptions the modelled operations raise.  Every value
    of [exn] stands for an instance of Python's [Exception]; interrupts
    ([KeyboardInterrupt], [SystemExit]) are outside the model. *)
Inductive exn_class : Type :=
| KeyError
| TypeError
| ValueError
| AttributeError
| IndexError
| OtherError (class_name : string).

(** [str_exn e] is [str(e)]. *)
Record exn : Type := Exn { class_of : exn_class; str_exn : string }.

(** What evaluating an expression or running a block ends in. *)
Inductive outcome (A : Type) : Type :=
| Return (a : A)
| Raise (e : exn).
Arguments Return {A} a.
Arguments Raise {A} e.

(** The values found in the dictionaries and frames of the market-data source:
    [None], a [str], a [float].  A [str] is a [string], character by
    character. *)
Inductive pyval : Type :=
| PyNone
| PyStr (s : string)
| PyFloat (f : float).

Definition type_name (v : pyval) : string :=
  match v with
  | PyNone => "NoneType"
  | PyStr _ => "str"
  | PyFloat _ => "float"
  end.

(** ** A state-and-exception monad for blocks of statements *)

Definition Py (S A : Type) : Type := S -> outcome A * S.

Section PyMonad.
Context {S : Type}.

Definition ret {A} (a : A) : Py S A := fun s => (Return a, s).

Definition raise {A} (e : exn) : Py S A := fun s => (Raise e, s).

Definition bind {A B} (m : Py S A) (k : A -> Py S B) : Py S B :=
  fun s =>
    match m s with
    | (Return a, s') => k a s'
    | (Raise e, s') => (Raise e, s')
    end.

(** A call of a collaborator whose result is already known. *)
Definition call {A} (o : outcome A) : Py S A := fun s => (o, s).

(** [try: body except Exception as e: handler e].  The state changes made
    by [body] before it raised are kept. *)
Definition try_except {A} (body : Py S A) (handler : exn -> Py S A) : Py S A :=
  fun s =>
    match body s with
    | (Return a, s') => (Return a, s')
    | (Raise e, s') => handler e s'
    end.
End PyMonad.

Declare Scope py_scope.
Delimit Scope py_scope with py.
Notation "x <- m ;; k" := (bind m (fun x => k))
  (at level 100, m at next level, right associativity) : py_scope.
Notation "m ;; k" := (bind m (fun _ => k))
  (at level 100, right associativity) : py_scope.

(** ** Formatting *)

Definition digits (n : Z) : string := NilZero.string_of_uint (N.to_uint (Z.to_N n)).

(** [|x| * 100] rounded to the nearest integer, ties to even, for
    [|x| = m * 2^e]: the correctly rounded two-decimal value that CPython's
    [float.__format__] prints. *)
Definition cents (m : positive) (e : Z) : Z :=
  let n := Z.pos m * 100 in
  if 0 <=? e then n * 2 ^ e
  else
    let d := 2 ^ (- e) in
    let q := n / d in
    let r := n mod d in
    if (d <? 2 * r) || ((d =? 2 * r) && Z.odd q) then q + 1 else q.

Definition fixed2 (c : Z) : string :=
  let frac := c mod 100 in
  digits (c / 100) +:+ "." +:+ (if frac <? 10 then "0" else "") +:+ digits frac.

Definition sign_str (s : bool) : string := if s then "-" else "".

(** [format(x, ".2f")] for a float [x]. *)
Definition format_2f (x : float) : string :=
  match x with
  | S754_nan => "nan"
  | S754_infinity s => sign_str s +:+ "inf"
  | S754_zero s => sign_str s +:+ "0.00"
  | S754_finite s m e => sign_str s +:+ fixed2 (cents m e)
  end.

(** Operations on dynamically typed values, with the exceptions the
    interpreter raises when the operand has the wrong type. *)
Section PythonRuntime.

(** [repr] of a float (the shortest decimal text that reads back as the same
    number), as [str(x)] and [f"{x}"] print it. *)
Variable float_repr : float -> string.

(** [str(v)], which is also what [f"{v}"] inserts. *)
Definition py_str (v : pyval) : string :=
  match v with
  | PyNone => "None"
  | PyStr s => s
  | PyFloat f => float_repr f
  end.

(** [v != s] for a string literal [s]. *)
Definition py_ne_str (v : pyval) (s : string) : bool :=
  match v with
  | PyStr t => negb (String.eqb t s)
  | _ => true
  end.

(** [v[:n]]: the first [n] characters of a string. *)
Definition py_slice_to (v : pyval) (n : nat) : outcome pyval :=
  match v with
  | PyStr s => Return (PyStr (String.substring 0 n s))
  | _ => Raise (Exn TypeError ("'" +:+ type_name v +:+ "' object is not subscriptable"))
  end.

Fixpoint str_repeat (s : string) (n : nat) : string :=
  match n with
  | O => ""
  | S n' => s +:+ str_repeat s n'
  end.

(** The int 100 as a float: [100 = 7036874417766400 * 2^-46]. *)
Definition float_100 : float := S754_finite false 7036874417766400 (-46).

(** [v * 100]: a float is multiplied as binary64 numbers are, a string is
    repeated. *)
Definition py_mul_100 (v : pyval) : outcome pyval :=
  match v with
  | PyFloat f => Return (PyFloat (SFmul prec emax f float_100))
  | PyStr s => Return (PyStr (str_repeat s 100))
  | PyNone =>
      Raise (Exn TypeError "unsupported operand type(s) for *: 'NoneType' and 'int'")
  end.

(** [f"{v:.2f}"]. *)
Definition py_format_2f (v : pyval) : outcome string :=
  match v with
  | PyFloat f => Return (format_2f f)
  | PyStr _ => Raise (Exn ValueError "Unknown format code 'f' for object of type 'str'")
  | PyNone => Raise (Exn TypeError "unsupported format string passed to NoneType.__format__")
  end.

Definition not_supported (op : string) (a b : pyval) : exn :=
  Exn TypeError
    ("'" +:+ op +:+ "' not supported between instances of '" +:+ type_name a
     +:+ "' and '" +:+ type_name b +:+ "'").

(** [a < b] and [a > b]. *)
Definition py_lt (a b : pyval) : outcome bool :=
  match a, b with
  | PyFloat x, PyFloat y => Return (SFltb x y)
  | PyStr s, PyStr t => Return (String.ltb s t)
  | _, _ => Raise (not_supported "<" a b)
  end.

Definition py_gt (a b : pyval) : outcome bool :=
  match a, b with
  | PyFloat x, PyFloat y => Return (SFltb y x)
  | PyStr s, PyStr t => Return (String.ltb t s)
  | _, _ => Raise (not_supported ">" a b)
  end.

(** [d[key]] and [d.get(key, default)] on a dictionary. *)
Definition getitem (d : gmap string pyval) (key : string) : outcome pyval :=
  match d !! key with
  | Some v => Return v
  | None => Raise (Exn KeyError ("'" +:+ key +:+ "'"))
  end.

Definition dict_get (d : gmap string pyval) (key : string) (default : pyval) : pyval :=
  match d !! key with
  | Some v => v
  | None => default
  end.

End PythonRuntime.

(** ** The market-data source (yfinance) *)

(** The frame [stock.history(...)] returns.  Only its [Close] column is read;
    a frame without rows is an empty frame. *)
Record DataFrame : Type := { Close : list float }.

(** [data.empty] *)
Definition empty (data : DataFrame) : bool :=
  match Close data with
  | [] => true
  | _ :: _ => false
  end.

(** [column.iloc[-1]] *)
Definition iloc_last {A : Type} (column : list A) : outcome A :=
  match last column with
  | Some x => Return x
  | None => Raise (Exn IndexError "single positional indexer is out-of-bounds")
  end.

(** The label of a row of a frame: a timestamp (kept as the ISO text of its
    date, which is what [str(ts.date())] gives) or a position of a range
    index. *)
Inductive label : Type :=
| Timestamp (date : string)
| Position (i : Z).

(** [row.name.date()] *)
Definition label_date (l : label) : outcome string :=
  match l with
  | Timestamp date => Return date
  | Position _ => Raise (Exn AttributeError "'int' object has no attribute 'date'")
  end.

(** A row of the recommendations frame: its cells by column name, and the
    row's label ([row.name]). *)
Record Series : Type := { cells : gmap string pyval; row_label : label }.

(** What a [yf.Ticker] object answers.  Each attribute is a lookup against the
    remote source: it returns or raises.  [recommendations] may be [None]. *)
Record Ticker : Type := {
  history : string -> outcome DataFrame;
  info : outcome (gmap string pyval);
  recommendations : outcome (option (list Series));
  news : outcome (list (gmap string pyval))
}.

(** The module [yf]: [yf_Ticker yf symbol] is [yf.Ticker(symbol)]. *)
Record yfinance : Type := { yf_Ticker : string -> outcome Ticker }.

(** ** The capability functions of main.py *)

(** The state of a capability function is the list of the records it emitted
    with [logging.error], oldest first. *)
Abbreviation Log := (list string).

Definition logging_error (msg : string) : Py Log unit :=
  fun log => (Return tt, log ++ [msg]).

Section Capabilities.

Variable float_repr : float -> string.
Variable yf : yfinance.

Local Open Scope py_scope.

(** The [try] block of [get_stock_price]. *)
Definition get_stock_price_try (symbol : string) : Py Log string :=
  stock <- call (yf_Ticker yf symbol) ;;
  data <- call (history stock "1d") ;;
  if negb (empty data) then
    current_price <- call (iloc_last (Close data)) ;;
    ret ("The current price of " +:+ symbol +:+ " is $" +:+ format_2f current_price)
  else
    ret ("Unable to fetch the current price for " +:+ symbol
         +:+ ". The stock data is empty.").

Definition get_stock_price (symbol : string) : Py Log string :=
  try_except (get_stock_price_try symbol)
    (fun e =>
       logging_error ("Error fetching stock price for " +:+ symbol +:+ ": " +:+ str_exn e) ;;
       ret ("Error fetching stock price for " +:+ symbol +:+ ": " +:+ str_exn e)).

(** The [try] block of [get_company_info].  The replacement fields of the
    f-string are evaluated left to right. *)
Definition get_company_info_try (symbol : string) : Py Log string :=
  stock <- call (yf_Ticker yf symbol) ;;
  info <- call (info stock) ;;
  longName <- call (getitem info "longName") ;;
  let sector := dict_get info "sector" (PyStr "Unknown") in
  summary <- call (py_slice_to (dict_get info "longBusinessSummary" (PyStr "")) 200) ;;
  ret (py_str float_repr longName +:+ " (" +:+ symbol +:+ ") is in the "
       +:+ py_str float_repr sector +:+ " sector. "
       +:+ py_str float_repr summary +:+ "...").

Definition get_company_info (symbol : string) : Py Log string :=
  try_except (get_company_info_try symbol)
    (fun e =>
       logging_error ("Error fetching company info for " +:+ symbol +:+ ": " +:+ str_exn e) ;;
       ret ("Error fetching company info for " +:+ symbol +:+ ": " +:+ str_exn e)).

(** The [try] block of [get_financial_ratios]. *)
Definition get_financial_ratios_try (symbol : string) : Py Log string :=
  stock <- call (yf_Ticker yf symbol) ;;
  info <- call (info stock) ;;
  let pe_ratio := dict_get info "trailingPE" (PyStr "N/A") in
  let pb_ratio := dict_get info "priceToBook" (PyStr "N/A") in
  let dividend_yield := dict_get info "dividendYield" (PyStr "N/A") in
  dividend_yield <-
    (if py_ne_str dividend_yield "N/A" then
       scaled <- call (py_mul_100 dividend_yield) ;;
       text <- call (py_format_2f scaled) ;;
       ret (PyStr (text +:+ "%"))
     else ret dividend_yield) ;;
  ret (symbol +:+ " financial ratios: P/E: " +:+ py_str float_repr pe_ratio
       +:+ ", P/B: " +:+ py_str float_repr pb_ratio
       +:+ ", Dividend Yield: " +:+ py_str float_repr dividend_yield).

Definition get_financial_ratios (symbol : string) : Py Log string :=
  try_except (get_financial_ratios_try symbol)
    (fun e =>
       logging_error ("Error fetching financial ratios for " +:+ symbol +:+ ": " +:+ str_exn e) ;;
       ret ("Error fetching financial ratios for " +:+ symbol +:+ ": " +:+ str_exn e)).

(** The [try] block of [get_analyst_recommendations]. *)
Definition get_analyst_recommendations_try (symbol : string) : Py Log string :=
  stock <- call (yf_Ticker yf symbol) ;;
  recommendations <- call (recommendations stock) ;;
  match recommendations with
  | Some ((_ :: _) as rows) =>
      latest_rec <- call (iloc_last rows) ;;
      grade <- call (getitem (cells latest_rec) "To Grade") ;;
      date <- call (label_date (row_label latest_rec)) ;;
      ret ("Latest analyst recommendation for " +:+ symbol +:+ ": "
           +:+ py_str float_repr grade +:+ " as of " +:+ date)
  | _ => ret ("No analyst recommendations available for " +:+ symbol)
  end.

Definition get_analyst_recommendations (symbol : string) : Py Log string :=
  try_except (get_analyst_recommendations_try symbol)
    (fun e =>
       logging_error ("Error fetching analyst recommendations for " +:+ symbol +:+ ": "
                      +:+ str_exn e) ;;
       ret ("Unable to fetch analyst recommendations for " +:+ symbol
            +:+ " due to an error: " +:+ str_exn e)).

(** The [try] block of [get_recent_news]. *)
Definition get_recent_news_try (symbol : string) : Py Log string :=
  stock <- call (yf_Ticker yf symbol) ;;
  news <- call (news stock) ;;
  match news with
  | latest_news :: _ =>
      title <- call (getitem latest_news "title") ;;
      link <- call (getitem latest_news "link") ;;
      ret ("Latest news for " +:+ symbol +:+ ": " +:+ py_str float_repr title
           +:+ " - " +:+ py_str float_repr link)
  | [] => ret ("No recent news available for " +:+ symbol)
  end.

Definition get_recent_news (symbol : string) : Py Log string :=
  try_except (get_recent_news_try symbol)
    (fun e =>
       logging_error ("Error fetching recent news for " +:+ symbol +:+ ": " +:+ str_exn e) ;;
       ret ("Error fetching recent news for " +:+ symbol +:+ ": " +:+ str_exn e)).

(** The [try] block of [get_industry_comparison]. *)
Definition get_industry_comparison_try (symbol : string) : Py Log string :=
  stock <- call (yf_Ticker yf symbol) ;;
  info <- call (info stock) ;;
  let sector := dict_get info "sector" (PyStr "Unknown") in
  let industry := dict_get info "industry" (PyStr "Unknown") in
  let pe_ratio := dict_get info "trailingPE" (PyStr "N/A") in
  let industry_pe := dict_get info "industryPE" (PyStr "N/A") in
  let comparison :=
    symbol +:+ " is in the " +:+ py_str float_repr sector
    +:+ " sector, specifically in the " +:+ py_str float_repr industry +:+ " industry. " in
  if py_ne_str pe_ratio "N/A" && py_ne_str industry_pe "N/A" then
    lower <- call (py_lt pe_ratio industry_pe) ;;
    if lower : bool then
      pe <- call (py_format_2f pe_ratio) ;;
      avg <- call (py_format_2f industry_pe) ;;
      ret (comparison +:+ "Its P/E ratio (" +:+ pe
           +:+ ") is lower than the industry average (" +:+ avg
           +:+ "), which could indicate it's undervalued compared to its peers.")
    else
      higher <- call (py_gt pe_ratio industry_pe) ;;
      if higher : bool then
        pe <- call (py_format_2f pe_ratio) ;;
        avg <- call (py_format_2f industry_pe) ;;
        ret (comparison +:+ "Its P/E ratio (" +:+ pe
             +:+ ") is higher than the industry average (" +:+ avg
             +:+ "), which could indicate it's overvalued compared to its peers.")
      else
        pe <- call (py_format_2f pe_ratio) ;;
        avg <- call (py_format_2f industry_pe) ;;
        ret (comparison +:+ "Its P/E ratio (" +:+ pe
             +:+ ") is in line with the industry average (" +:+ avg +:+ ").")
  else
    ret (comparison
         +:+ "Unable to compare P/E ratio with industry average due to lack of data.").

Definition get_industry_comparison (symbol : string) : Py Log string :=
  try_except (get_industry_comparison_try symbol)
    (fun e =>
       logging_error ("Error fetching industry comparison for " +:+ symbol +:+ ": "
                      +:+ str_exn e) ;;
       ret ("Unable to fetch industry comparison for " +:+ symbol
            +:+ " due to an error: " +:+ str_exn e)).

End Capabilities.

(** ** Capability descriptors and registries *)

(** [ToolMetadata(name=..., description=...)] *)
Record ToolMetadata : Type := { name : string; description : string }.

(** A Python function taking a symbol: its [__name__], its docstring and its
    body. *)
Record PyFunction : Type := {
  fn_name : string;
  fn_doc : string;
  fn_body : string -> Py Log string
}.

Record FunctionTool : Type := { fn : PyFunction; metadata : ToolMetadata }.

Definition newline : string := String (ascii_of_nat 10) EmptyString.

(** llama_index's [FunctionTool.from_defaults(fn=f)], called as main.py calls
    it, with neither a name nor a description: the tool is named [f.__name__]
    and described by that name, the signature and the docstring. *)
Definition from_defaults (f : PyFunction) : FunctionTool :=
  {| fn := f;
     metadata :=
       {| name := fn_name f;
          description := fn_name f +:+ "(symbol: str) -> str" +:+ newline +:+ fn_doc f |} |}.

(** llama_agents' [ToolService.get_tool_by_name]: the tools are put in a
    dictionary keyed by name, so of two tools with one name the later one is
    found. *)
Definition get_tool_by_name (tools : list ToolMetadata) (n : string) : outcome ToolMetadata :=
  match last (filter (fun t => name t = n) tools) with
  | Some t => Return t
  | None => Raise (Exn ValueError ("Tool with name " +:+ n +:+ " not found"))
  end.

(** ** Credentials: the check both scripts run when they are loaded *)

(** python-dotenv's [load_dotenv()] with its defaults: each variable of the
    [.env] file that the process environment does not define yet is added to
    it; a variable that is already defined keeps its value. *)
Definition load_dotenv (dotenv environ : gmap string string) : gmap string string :=
  environ ∪ dotenv.

Definition api_base : string := "https://api.aigc369.com/v1".

(** Lines 20-31 of main.py and lines 27-38 of RAG.py, on [os.environ]:
    [load_dotenv()], [api_key = os.getenv("OPENAI_API_KEY")], the check
    [if not api_key] (true of [None] and of the empty string) and the two
    assignments to [os.environ]. *)
Definition configure (dotenv : gmap string string) : Py (gmap string string) unit :=
  fun environ =>
    let environ := load_dotenv dotenv environ in
    match environ !! "OPENAI_API_KEY" with
    | Some api_key =>
        if String.eqb api_key "" then
          (Raise (Exn ValueError "OPENAI_API_KEY not found in .env file"), environ)
        else
          (Return tt,
           <["OPENAI_BASE_URL" := api_base]> (<["OPENAI_API_KEY" := api_key]> environ))
    | None => (Raise (Exn ValueError "OPENAI_API_KEY not found in .env file"), environ)
    end.

(** ** The process: environment, files, persisted indexes, coordinator, output *)

(** What the process does that can be observed from outside, in order. *)
Inductive event : Type :=
| Printed (text : string)
| Submitted (request : string).

Section Scripts.

(** A document read from a file, and an index built from documents: opaque. *)
Variable Document : Type.
Variable Index : Type.

(** [VectorStoreIndex.from_documents]: it calls the embedding service, and may
    raise. *)
Variable from_documents : list Document -> outcome Index.

(** The dispatch coordinator (the launcher with its services, agent and
    language model): a state, and a run on one request, given the descriptors
    it may call, that ends in the final answer or raises. *)
Variable Coordinator : Type.
Variable coordinate :
  list ToolMetadata -> string -> Coordinator -> outcome string * Coordinator.

(** [files] are the documents readable by path; [storage] holds, by directory
    path, the indexes persisted in that directory. *)
Record World : Type := {
  environ : gmap string string;
  files : gmap string (list Document);
  storage : gmap string (list Index);
  coordinator : Coordinator;
  trace : list event
}.

Definition set_environ (env : gmap string string) (w : World) : World :=
  {| environ := env; files := files w; storage := storage w;
     coordinator := coordinator w; trace := trace w |}.

Definition set_storage (st : gmap string (list Index)) (w : World) : World :=
  {| environ := environ w; files := files w; storage := st;
     coordinator := coordinator w; trace := trace w |}.

Definition set_coordinator (c : Coordinator) (w : World) : World :=
  {| environ := environ w; files := files w; storage := storage w;
     coordinator := c; trace := trace w |}.

Definition emit (ev : event) (w : World) : World :=
  {| environ := environ w; files := files w; storage := storage w;
     coordinator := coordinator w; trace := trace w ++ [ev] |}.

Local Open Scope py_scope.

(** The credential check, run on the process's [os.environ]. *)
Definition load_configuration (dotenv : gmap string string) : Py World unit :=
  fun w =>
    let '(r, env) := configure dotenv (environ w) in
    (r, set_environ env w).

Definition print (text : string) : Py World unit :=
  fun w => (Return tt, emit (Printed text) w).

(** *** RAG.py *)

(** A storage context read from a directory: the indexes found there. *)
Record StorageContext : Type := { persist_dir : string; index_structs : list Index }.

(** [StorageContext.from_defaults(persist_dir=dir)]: raises when the
    directory does not exist. *)
Definition StorageContext_from_defaults (dir : string) : Py World StorageContext :=
  fun w =>
    match storage w !! dir with
    | Some indexes => (Return {| persist_dir := dir; index_structs := indexes |}, w)
    | None =>
        (Raise (Exn (OtherError "FileNotFoundError")
                  ("No such file or directory: '" +:+ dir +:+ "'")), w)
    end.

(** [load_index_from_storage(storage_context)], without an index id: raises
    unless the context holds exactly one index. *)
Definition load_index_from_storage (storage_context : StorageContext) : Py World Index :=
  match index_structs storage_context with
  | [index] => ret index
  | [] =>
      raise (Exn ValueError
               "No index in storage context, check if you specified the right persist_dir.")
  | (_ :: _ :: _) as indexes =>
      raise (Exn ValueError
               ("Expected to load a single index, but got "
                +:+ digits (Z.of_nat (length indexes))
                +:+ " instead. Please specify index_id."))
  end.

(** [SimpleDirectoryReader(input_files=[path]).load_data()] *)
Definition load_data (path : string) : Py World (list Document) :=
  fun w =>
    match files w !! path with
    | Some docs => (Return docs, w)
    | None => (Raise (Exn ValueError ("File " +:+ path +:+ " does not exist.")), w)
    end.

(** [index.storage_context.persist(persist_dir=dir)], for an index just built:
    its storage context holds this index alone. *)
Definition persist (index : Index) (dir : string) : Py World unit :=
  fun w => (Return tt, set_storage (<[dir := [index] ]> (storage w)) w).

Definition load_and_index_data : Py World (Index * Index) :=
  try_except
    (storage_context <- StorageContext_from_defaults "./storage/lyft" ;;
     lyft_index <- load_index_from_storage storage_context ;;
     storage_context <- StorageContext_from_defaults "./storage/uber" ;;
     uber_index <- load_index_from_storage storage_context ;;
     ret (lyft_index, uber_index))
    (fun _ =>
       lyft_docs <- load_data "./data/10k/lyft_2021.pdf" ;;
       uber_docs <- load_data "./data/10k/uber_2021.pdf" ;;
       lyft_index <- call (from_documents lyft_docs) ;;
       uber_index <- call (from_documents uber_docs) ;;
       persist lyft_index "./storage/lyft" ;;
       persist uber_index "./storage/uber" ;;
       ret (lyft_index, uber_index)).

(** [index.as_query_engine(similarity_top_k=k)] *)
Record QueryEngine : Type := { engine_index : Index; similarity_top_k : nat }.

Definition as_query_engine (index : Index) (k : nat) : QueryEngine :=
  {| engine_index := index; similarity_top_k := k |}.

Record QueryEngineTool : Type := { query_engine : QueryEngine; tool_metadata : ToolMetadata }.

Definition setup_query_engines_and_tools (lyft_index uber_index : Index)
  : list QueryEngineTool :=
  let lyft_engine := as_query_engine lyft_index 3 in
  let uber_engine := as_query_engine uber_index 3 in
  [ {| query_engine := lyft_engine;
       tool_metadata :=
         {| name := "lyft_10k";
            description :=
              "Provides information about Lyft financials for year 2021. "
              +:+ "Use a detailed plain text question as input to the tool." |} |};
    {| query_engine := uber_engine;
       tool_metadata :=
         {| name := "uber_10k";
            description :=
              "Provides information about Uber financials for year 2021. "
              +:+ "Use a detailed plain text question as input to the tool." |} |} ].

(** The launcher: the descriptors its agent was given, and the agent
    service's description and name. *)
Record LocalLauncher : Type := {
  meta_tools : list ToolMetadata;
  agent_description : string;
  service_name : string
}.

(** [[f(x) for x in xs]] where [f] may raise. *)
Fixpoint comprehension {S A B : Type} (f : A -> Py S B) (xs : list A) : Py S (list B) :=
  match xs with
  | [] => ret []
  | x :: rest =>
      y <- f x ;;
      ys <- comprehension f rest ;;
      ret (y :: ys)
  end.

Definition setup_agents_and_services (query_engine_tools : list QueryEngineTool)
  : Py World LocalLauncher :=
  let tools := map tool_metadata query_engine_tools in
  meta_tools <-
    comprehension (fun t => call (get_tool_by_name tools (name (tool_metadata t))))
      query_engine_tools ;;
  ret {| meta_tools := meta_tools;
         agent_description := "Used to answer questions over Uber and Lyft 10K documents";
         service_name := "uber_lyft_10k_analyst_agent" |}.

(** [launcher.launch_single(request)] and [await launcher.alaunch_single(request)]:
    the request is handed to the coordinator, which answers or raises. *)
Definition launch_single (launcher : LocalLauncher) (request : string) : Py World string :=
  fun w =>
    let '(r, c) := coordinate (meta_tools launcher) request (coordinator w) in
    (r, set_coordinator c (emit (Submitted request) w)).

(** [for x in xs: body x] *)
Fixpoint for_each {S A : Type} (xs : list A) (body : A -> Py S unit) : Py S unit :=
  match xs with
  | [] => ret tt
  | x :: rest => body x ;; for_each rest body
  end.

Definition queries : list string :=
  [ "What are the risk factors for Uber?";
    "What was Lyft's revenue growth in 2021?" ].

(** The loop of [main], for any list of requests. *)
Definition run_queries (launcher : LocalLauncher) (requests : list string) : Py World unit :=
  for_each requests
    (fun query =>
       print ("Query: " +:+ query) ;;
       result <- launch_single launcher query ;;
       print ("Result: " +:+ result +:+ newline)).

Definition main : Py World unit :=
  indexes <- load_and_index_data ;;
  let '(lyft_index, uber_index) := indexes in
  let query_engine_tools := setup_query_engines_and_tools lyft_index uber_index in
  launcher <- setup_agents_and_services query_engine_tools ;;
  run_queries launcher queries.

(** RAG.py run as a script. *)
Definition RAG_script (dotenv : gmap string string) : Py World unit :=
  load_configuration dotenv ;;
  main.

End Scripts.

(** *** main.py *)

Section MainScript.

Variable float_repr : float -> string.
Variable yf : yfinance.
Variable Document : Type.
Variable Index : Type.
Variable Coordinator : Type.
Variable coordinate :
  list ToolMetadata -> string -> Coordinator -> outcome string * Coordinator.

Local Open Scope py_scope.

(** The six function objects, as the [def] statements create them. *)
Definition def_get_stock_price : PyFunction :=
  {| fn_name := "get_stock_price";
     fn_doc := "获取给定股票代码的当前价格";
     fn_body := get_stock_price yf |}.

Definition def_get_company_info : PyFunction :=
  {| fn_name := "get_company_info";
     fn_doc := "获取给定股票代码的公司信息";
     fn_body := get_company_info float_repr yf |}.

Definition def_get_financial_ratios : PyFunction :=
  {| fn_name := "get_financial_ratios";
     fn_doc := "获取给定股票的关键财务比率";
     fn_body := get_financial_ratios float_repr yf |}.

Definition def_get_analyst_recommendations : PyFunction :=
  {| fn_name := "get_analyst_recommendations";
     fn_doc := "获取分析师对给定股票的推荐";
     fn_body := get_analyst_recommendations float_repr yf |}.

Definition def_get_recent_news : PyFunction :=
  {| fn_name := "get_recent_news";
     fn_doc := "获取与给定股票相关的最新新闻";
     fn_body := get_recent_news float_repr yf |}.

Definition def_get_industry_comparison : PyFunction :=
  {| fn_name := "get_industry_comparison";
     fn_doc := "获取股票与行业平均水平的比较";
     fn_body := get_industry_comparison float_repr yf |}.

Definition stock_price_tool : FunctionTool := from_defaults def_get_stock_price.
Definition company_info_tool : FunctionTool := from_defaults def_get_company_info.
Definition financial_ratios_tool : FunctionTool := from_defaults def_get_financial_ratios.
Definition analyst_recommendations_tool : FunctionTool :=
  from_defaults def_get_analyst_recommendations.
Definition recent_news_tool : FunctionTool := from_defaults def_get_recent_news.
Definition industry_comparison_tool : FunctionTool :=
  from_defaults def_get_industry_comparison.

(** The [tools] of the tool service. *)
Definition tool_service_tools : list FunctionTool :=
  [ stock_price_tool; company_info_tool; financial_ratios_tool;
    analyst_recommendations_tool; recent_news_tool; industry_comparison_tool ].

(** One [MetaServiceTool] per tool, carrying the tool's own metadata. *)
Definition main_meta_tools : list ToolMetadata :=
  map metadata
    [ stock_price_tool; company_info_tool; financial_ratios_tool;
      analyst_recommendations_tool; recent_news_tool; industry_comparison_tool ].

Definition launcher : LocalLauncher :=
  {| meta_tools := main_meta_tools;
     agent_description :=
       "Useful for analyzing stocks and providing investment recommendations.";
     service_name := "stock_analysis_agent" |}.

(** The request main.py submits. *)
Definition request : string := "
分析 AAPL 股票是否值得购买。
请考虑以下因素:
1. 当前股价
2. 公司基本信息
3. 关键财务比率（如 P/E、P/B、股息收益率）
4. 分析师推荐
5. 最新相关新闻
6. 与行业平均水平的比较
根据这些信息，给出你的投资建议（买入、持有或卖出）并详细解释理由。
如果某些信息无法获取，请在分析中说明，并基于可用信息给出最佳判断。
".

(** main.py run as a script. *)
Definition main_script (dotenv : gmap string string)
  : Py (World Document Index Coordinator) unit :=
  load_configuration Document Index Coordinator dotenv ;;
  result <- launch_single Document Index Coordinator coordinate launcher request ;;
  print Document Index Coordinator ("Result: " +:+ result).

End MainScript.

Arguments environ {Document Index Coordinator} _.
Arguments files {Document Index Coordinator} _.
Arguments storage {Document Index Coordinator} _.
Arguments coordinator {Document Index Coordinator} _.
Arguments trace {Document Index Coordinator} _.
Arguments set_environ {Document Index Coordinator} env w.
Arguments set_storage {Document Index Coordinator} st w.
Arguments set_coordinator {Document Index Coordinator} c w.
Arguments emit {Document Index Coordinator} ev w.
Arguments persist_dir {Index} _.
Arguments index_structs {Index} _.
Arguments query_engine {Index} _.
Arguments tool_metadata {Index} _.
Arguments print {Document Index Coordinator} text _.
Arguments load_configuration {Document Index Coordinator} dotenv _.
Arguments launch_single {Document Index Coordinator} coordinate launcher request _.
Arguments run_queries {Document Index Coordinator} coordinate launcher requests _.
Arguments load_and_index_data {Document Index} from_documents {Coordinator} _.
Arguments setup_query_engines_and_tools {Index} lyft_index uber_index.
Arguments setup_agents_and_services {Document Index Coordinator} query_engine_tools _.
Arguments main {Document Index} from_documents {Coordinator} coordinate _.
Arguments RAG_script {Document Index} from_documents {Coordinator} coordinate dotenv _.
Arguments main_script float_repr yf {Document Index Coordinator} coordinate dotenv _.

(** ** The vocabulary of the statements *)

(** [needle] occurs in [text]. *)
Definition contains (needle text : string) : Prop :=
  exists before after, text = before +:+ needle +:+ after.

(** The six capability functions, by name. *)
Inductive capability : Type :=
| GetStockPrice
| GetCompanyInfo
| GetFinancialRatios
| GetAnalystRecommendations
| GetRecentNews
| GetIndustryComparison.

(** The function a capability names, and the [try] block of that function. *)
Definition run_capability (float_repr : float -> string) (yf : yfinance) (c : capability)
  : string -> Py Log string :=
  match c with
  | GetStockPrice => get_stock_price yf
  | GetCompanyInfo => get_company_info float_repr yf
  | GetFinancialRatios => get_financial_ratios float_repr yf
  | GetAnalystRecommendations => get_analyst_recommendations float_repr yf
  | GetRecentNews => get_recent_news float_repr yf
  | GetIndustryComparison => get_industry_comparison float_repr yf
  end.

Definition try_block (float_repr : float -> string) (yf : yfinance) (c : capability)
  : string -> Py Log string :=
  match c with
  | GetStockPrice => get_stock_price_try yf
  | GetCompanyInfo => get_company_info_try float_repr yf
  | GetFinancialRatios => get_financial_ratios_try float_repr yf
  | GetAnalystRecommendations => get_analyst_recommendations_try float_repr yf
  | GetRecentNews => get_recent_news_try float_repr yf
  | GetIndustryComparison => get_industry_comparison_try float_repr yf
  end.

(** The lookup a capability makes on its ticker raises [e]. *)
Definition lookup_raises (c : capability) (stock : Ticker) (e : exn) : Prop :=
  match c with
  | GetStockPrice => history stock "1d" = Raise e
  | GetCompanyInfo | GetFinancialRatios | GetIndustryComparison => info stock = Raise e
  | GetAnalystRecommendations => recommendations stock = Raise e
  | GetRecentNews => news stock = Raise e
  end.

(** The upstream data lookup of capability [c] for [symbol] raises [e]: either
    [yf.Ticker(symbol)] does, or the lookup on the ticker it returned. *)
Definition upstream_raises (yf : yfinance) (c : capability) (symbol : string) (e : exn)
  : Prop :=
  yf_Ticker yf symbol = Raise e \/
  exists stock, yf_Ticker yf symbol = Return stock /\ lookup_raises c stock e.

(** What one answered request adds to the trace. *)
Definition exchange (query answer : string) : list event :=
  [ Printed ("Query: " +:+ query);
    Submitted query;
    Printed ("Result: " +:+ answer +:+ newline) ].

(** The index that can be restored from a directory: the directory exists and
    holds exactly one index. *)
Definition restorable {Index : Type} (st : gmap string (list Index)) (dir : string)
  : option Index :=
  match st !! dir with
  | Some [index] => Some index
  | _ => None
  end.

(** The launcher [setup_agents_and_services] builds from the two tools of
    RAG.py. *)
Definition RAG_launcher : LocalLauncher :=
  {| meta_tools :=
       map tool_metadata (setup_query_engines_and_tools (Index := unit) tt tt);
     agent_description := "Used to answer questions over Uber and Lyft 10K documents";
     service_name := "uber_lyft_10k_analyst_agent" |}.

(** [answered coordinate tools c requests answers c']: from state [c], the
    coordinator answers the requests one after the other, and is left in
    state [c']. *)
Inductive answered {Coordinator : Type}
  (coordinate : list ToolMetadata -> string -> Coordinator -> outcome string * Coordinator)
  (tools : list ToolMetadata)
  : Coordinator -> list string -> list string -> Coordinator -> Prop :=
| answered_nil (c : Coordinator) : answered coordinate tools c [] [] c
| answered_cons (c c' c'' : Coordinator) (q a : string) (qs answers : list string) :
    coordinate tools q c = (Return a, c') ->
    answered coordinate tools c' qs answers c'' ->
    answered coordinate tools c (q :: qs) (a :: answers) c''.

(** The world after a run of the coordinator: its new state, and the events
    added to the trace. *)
Definition with_run {Document Index Coordinator : Type}
  (c : Coordinator) (evs : list event) (w : World Document Index Coordinator)
  : World Document Index Coordinator :=
  {| environ := environ w; files := files w; storage := storage w;
     coordinator := c; trace := trace w ++ evs |}.

(** ** Concrete inputs *)

Definition no_repr (_ : float) : string := "".

Definition connection_error : exn := Exn (OtherError "ConnectionError") "connection refused".

(** A source that is down. *)
Definition yf_down : yfinance := {| yf_Ticker := fun _ => Raise connection_error |}.

Definition quiet_ticker : Ticker :=
  {| history := fun _ => Return {| Close := [] |};
     info := Return ∅;
     recommendations := Return None;
     news := Return [] |}.

(** A source with nothing to report on any symbol. *)
Definition yf_quiet : yfinance := {| yf_Ticker := fun _ => Return quiet_ticker |}.

(** A source whose one-day history closes at 150.0 and whose other lookups
    raise. *)
Definition yf_150 : yfinance :=
  {| yf_Ticker := fun _ =>
       Return
         {| history := fun _ => Return {| Close := [S754_finite false 75 1] |};
            info := Raise connection_error;
            recommendations := Raise connection_error;
            news := Raise connection_error |} |}.

(** A source that knows the company's name and a long summary, and one that
    knows everything but the name. *)
Definition long_summary : string := str_repeat "0123456789" 25.

Definition yf_named : yfinance :=
  {| yf_Ticker := fun _ =>
       Return
         {| history := fun _ => Return {| Close := [] |};
            info := Return (<["longName" := PyStr "Apple Inc."]>
                              (<["longBusinessSummary" := PyStr long_summary]> ∅));
            recommendations := Return None;
            news := Return [] |} |}.

Definition yf_unnamed : yfinance :=
  {| yf_Ticker := fun _ =>
       Return
         {| history := fun _ => Return {| Close := [] |};
            info := Return (<["sector" := PyStr "Technology"]>
                              (<["longBusinessSummary" := PyStr long_summary]> ∅));
            recommendations := Return None;
            news := Return [] |} |}.

(** Documents that are their own text, and an index that is the list of the
    documents it was built from. *)
Definition index_documents (docs : list string) : outcome (list string) := Return docs.

Definition llm_error : exn := Exn (OtherError "APIConnectionError") "Connection error.".

(** A coordinator whose language-model call fails on every request. *)
Definition failing_coordinator (_ : list ToolMetadata) (_ : string) (c : unit)
  : outcome string * unit :=
  (Raise llm_error, c).

(** A coordinator that answers "Q1" with "A1", "Q2" with "A2", and counts the
    requests it was given. *)
Definition numbered_coordinator (_ : list ToolMetadata) (q : string) (n : nat)
  : outcome string * nat :=
  (Return ("A" +:+ String.substring 1 (String.length q - 1) q), S n).

Definition pdfs : gmap string (list string) :=
  <["./data/10k/lyft_2021.pdf" := ["Lyft 10-K for 2021"] ]>
    (<["./data/10k/uber_2021.pdf" := ["Uber 10-K for 2021"] ]> ∅).

Definition configured_environ : gmap string string := <["OPENAI_API_KEY" := "sk-test"]> ∅.

(** A configured process that has not persisted any index yet. *)
Definition first_run {C : Type} (c : C) : World string (list string) C :=
  {| environ := configured_environ; files := pdfs; storage := ∅;
     coordinator := c; trace := [] |}.

(** A configured process that finds a persisted Lyft index, built from an
    older document, and no Uber index. *)
Definition half_restored {C : Type} (c : C) : World string (list string) C :=
  {| environ := configured_environ; files := pdfs;
     storage := <["./storage/lyft" := [ ["Lyft 10-K for 2020"] ] ]> ∅;
     coordinator := c; trace := [] |}.

(** A process started without the key, with no [.env] file. *)
Definition unconfigured {C : Type} (c : C) : World string (list string) C :=
  {| environ := ∅; files := pdfs; storage := ∅; coordinator := c; trace := [] |}.

(** *** More vocabulary and inputs *)

(** What a capability function fetches, as its log records word it. *)
Definition topic (c : capability) : string :=
  match c with
  | GetStockPrice => "stock price"
  | GetCompanyInfo => "company info"
  | GetFinancialRatios => "financial ratios"
  | GetAnalystRecommendations => "analyst recommendations"
  | GetRecentNews => "recent news"
  | GetIndustryComparison => "industry comparison"
  end.

(** The requests handed to the coordinator, in the order of the trace. *)
Definition submitted (evs : list event) : list string :=
  omap (fun ev => match ev with Submitted q => Some q | Printed _ => None end) evs.

(** The texts printed, in the order of the trace. *)
Definition printed (evs : list event) : list string :=
  omap (fun ev => match ev with Printed text => Some text | Submitted _ => None end) evs.

(** A source that answers every symbol with the given info dictionary,
    recommendations and news, and an empty history. *)
Definition yf_with (d : gmap string pyval) (recs : option (list Series))
  (items : list (gmap string pyval)) : yfinance :=
  {| yf_Ticker := fun _ =>
       Return {| history := fun _ => Return {| Close := [] |};
                 info := Return d;
                 recommendations := Return recs;
                 news := Return items |} |}.

(** 0.0044, 28.5 and 31.25 as binary64 numbers, with 53-bit mantissas. *)
Definition float_0_0044 : float := S754_finite false 5072854620270127 (-60).
Definition float_28_5 : float := S754_finite false 8022036836253696 (-48).
Definition float_31_25 : float := S754_finite false 8796093022208000 (-48).

Definition upgrade_row (grade : string) (date : string) : Series :=
  {| cells := <["To Grade" := PyStr grade]> ∅; row_label := Timestamp date |}.


Definition news_item (title link : string) : gmap string pyval :=
  <["title" := PyStr title]> (<["link" := PyStr link]> ∅).

(** A configured process whose two directories hold the indexes built from
    the two documents. *)
Definition restored_run {C : Type} (c : C) : World string (list string) C :=
  {| environ := configured_environ; files := pdfs;
     storage := <["./storage/uber" := [ ["Uber 10-K for 2021"] ] ]>
                  (<["./storage/lyft" := [ ["Lyft 10-K for 2021"] ] ]> ∅);
     coordinator := c; trace := [] |}.

(** A configured process with nothing persisted and no document to read. *)
Definition no_documents {C : Type} (c : C) : World string (list string) C :=
  {| environ := configured_environ; files := ∅; storage := ∅;
     coordinator := c; trace := [] |}.

(** An index builder whose embedding service is down. *)
Definition failing_index (_ : list string) : outcome (list string) := Raise connection_error.

(** Info dictionaries: a yield and nothing else; both P/E ratios with sector
    and industry; the stock's P/E alone; a P/E that is [None]; a name with a
    summary that is [None]. *)
Definition info_yield : gmap string pyval := <["dividendYield" := PyFloat float_0_0044]> ∅.

Definition info_yield_none : gmap string pyval := <["dividendYield" := PyNone]> ∅.

Definition info_ratios (pe : pyval) : gmap string pyval :=
  <["trailingPE" := pe]>
    (<["industryPE" := PyFloat float_31_25]>
       (<["sector" := PyStr "Technology"]>
          (<["industry" := PyStr "Consumer Electronics"]> ∅))).

Definition info_pe_only : gmap string pyval := <["trailingPE" := PyFloat float_28_5]> ∅.

Definition info_summary_none : gmap string pyval :=
  <["longName" := PyStr "Apple Inc."]> (<["longBusinessSummary" := PyNone]> ∅).

(** Process environments: a key and another base URL; an empty key. *)
Definition environ_other_base : gmap string string :=
  <["OPENAI_API_KEY" := "sk-process"]> (<["OPENAI_BASE_URL" := "https://example.org/v1"]> ∅).

Definition environ_empty_key : gmap string string := <["OPENAI_API_KEY" := ""]> ∅.

(** A [.env] file with a key and one more variable. *)
Definition dotenv_file : gmap string string :=
  <["OPENAI_API_KEY" := "sk-file"]> (<["LOG_LEVEL" := "debug"]> ∅).

(** A coordinator that answers every request. *)
Definition answering_coordinator (_ : list ToolMetadata) (q : string) (c : unit)
  : outcome string * unit :=
  (Return ("Answer to: " +:+ q), c).

(** A coordinator that answers the first request it is given and fails on
    every later one. *)
Definition tiring_coordinator (_ : list ToolMetadata) (q : string) (n : nat)
  : outcome string * nat :=
  match n with
  | O => (Return ("Answer to: " +:+ q), S n)
  | S _ => (Raise llm_error, S n)
  end.

(** ** Strings *)

Lemma append_cons (a : ascii) (s t : string) : String a s +:+ t = String a (s +:+ t).
Proof. reflexivity. Qed.

Lemma append_assoc (s t u : string) : (s +:+ t) +:+ u = s +:+ t +:+ u.
Proof.
  induction s as [|a s IH]; [reflexivity|].
  rewrite !append_cons. now rewrite IH.
Qed.

Lemma append_empty_r (s : string) : s +:+ "" = s.
Proof.
  induction s as [|a s IH]; [reflexivity|].
  rewrite append_cons. now rewrite IH.
Qed.

Lemma contains_between (before needle after : string) :
  contains needle (before +:+ needle +:+ after).
Proof. now exists before, after. Qed.

Lemma contains_suffix (before needle : string) : contains needle (before +:+ needle).
Proof. exists before, "". now rewrite append_empty_r. Qed.

Lemma substring_length (n : nat) (s : string) :
  (String.length (String.substring 0 n s) <= n)%nat.
Proof.
  revert s. induction n as [|n IH]; intros [|a s]; simpl; try lia.
  specialize (IH s). lia.
Qed.

Lemma substring_prefix (n : nat) (s : string) :
  exists rest, s = String.substring 0 n s +:+ rest.
Proof.
  revert s. induction n as [|n IH]; intros [|a s].
  - now exists "".
  - now exists (String a s).
  - now exists "".
  - destruct (IH s) as [rest Hrest]. exists rest.
    simpl. rewrite append_cons. now rewrite <- Hrest.
Qed.

Lemma substring_short (n : nat) (s : string) :
  (String.length s <= n)%nat -> String.substring 0 n s = s.
Proof.
  revert s. induction n as [|n IH]; intros [|a s] Hlen; simpl in *; try reflexivity; try lia.
  rewrite IH; [reflexivity | lia].
Qed.

(** ** The monad *)

Section MonadFacts.
Context {S A : Type}.

Lemma try_except_return (body : Py S A) (handler : exn -> Py S A) (s s' : S) (a : A) :
  body s = (Return a, s') -> try_except body handler s = (Return a, s').
Proof. intros H. unfold try_except. now rewrite H. Qed.

Lemma try_except_raise (body : Py S A) (handler : exn -> Py S A) (s s' : S) (e : exn) :
  body s = (Raise e, s') -> try_except body handler s = handler e s'.
Proof. intros H. unfold try_except. now rewrite H. Qed.

Lemma bind_return {B : Type} (m : Py S A) (k : A -> Py S B) (s s' : S) (a : A) :
  m s = (Return a, s') -> bind m k s = k a s'.
Proof. intros H. unfold bind. now rewrite H. Qed.

Lemma bind_raise {B : Type} (m : Py S A) (k : A -> Py S B) (s s' : S) (e : exn) :
  m s = (Raise e, s') -> bind m k s = (Raise e, s').
Proof. intros H. unfold bind. now rewrite H. Qed.

(** A [try] whose handler returns always returns. *)
Lemma try_except_total (body : Py S A) (handler : exn -> Py S A) :
  (forall e s, exists a s', handler e s = (Return a, s')) ->
  forall s, exists a s', try_except body handler s = (Return a, s').
Proof.
  intros Hh s. unfold try_except.
  destruct (body s) as [[a|e] s']; [now exists a, s' | apply Hh].
Qed.

End MonadFacts.

(** ** The capability functions *)

(** Case analysis on a scrutinee that has no [match] inside it. *)
Ltac case_innermost :=
  match goal with
  | |- context [match ?x with _ => _ end] =>
      lazymatch x with
      | context [match _ with _ => _ end] => fail
      | _ => destruct x eqn:?; simpl
      end
  end.

Ltac unfold_blocks :=
  unfold get_stock_price_try, get_company_info_try, get_financial_ratios_try,
    get_analyst_recommendations_try, get_recent_news_try, get_industry_comparison_try,
    bind, call, ret; simpl.

Section CapabilityFacts.

Variable float_repr : float -> string.
Variable yf : yfinance.

(** The [try] blocks change no state: only the handlers log. *)
Lemma try_block_keeps_log (c : capability) (symbol : string) (log : Log) :
  snd (try_block float_repr yf c symbol log) = log.
Proof.
  destruct c; simpl; unfold_blocks; repeat case_innermost; reflexivity.
Qed.

Ltac unfold_functions :=
  unfold run_capability, get_stock_price, get_company_info, get_financial_ratios,
    get_analyst_recommendations, get_recent_news, get_industry_comparison,
    try_except, logging_error.

(** X1: whatever the source answers, a capability function returns a string. *)
Lemma capability_returns (c : capability) (symbol : string) (log : Log) :
  exists text log', run_capability float_repr yf c symbol log = (Return text, log').
Proof.
  destruct c; simpl; apply try_except_total; intros e s;
    unfold bind, logging_error, ret; simpl; eauto.
Qed.

(** A raising lookup makes the [try] block raise the same exception. *)
Lemma upstream_raises_try_block (c : capability) (symbol : string) (e : exn) (log : Log) :
  upstream_raises yf c symbol e ->
  try_block float_repr yf c symbol log = (Raise e, log).
Proof.
  intros [H | (stock & Hstock & H)]; destruct c; simpl in *; unfold_blocks;
    rewrite ?Hstock, ?H; reflexivity.
Qed.

(** C1: when the upstream lookup of a capability function raises, the function
    catches the exception and returns a string; the string contains the symbol
    and the exception's message, and opens with an English description of the
    failure. *)
Theorem upstream_failure_is_reported
  (c : capability) (symbol : string) (e : exn) (log : Log) :
  upstream_raises yf c symbol e ->
  exists text,
    fst (run_capability float_repr yf c symbol log) = Return text
    /\ contains symbol text
    /\ contains (str_exn e) text
    /\ (String.prefix "Error fetching " text = true
        \/ String.prefix "Unable to fetch " text = true).
Proof.
  intros H. apply (upstream_raises_try_block c symbol e log) in H.
  destruct c; simpl in H; unfold_functions; rewrite H; simpl;
    eexists; (split; [reflexivity|]);
    (split; [apply contains_between|]);
    (split; [rewrite <- !append_assoc; apply contains_suffix|]);
    (left; reflexivity) || (right; reflexivity).
Qed.

(** C2: with a non-empty one-day history whose last close is [p],
    [get_stock_price] returns "The current price of {symbol} is ${p:.2f}"; when
    the lookup raises with message [m] it returns
    "Error fetching stock price for {symbol}: {m}". *)
Theorem get_stock_price_strings (symbol : string) (log : Log) :
  (forall stock data p,
      yf_Ticker yf symbol = Return stock ->
      history stock "1d" = Return data ->
      last (Close data) = Some p ->
      get_stock_price yf symbol log
      = (Return ("The current price of " +:+ symbol +:+ " is $" +:+ format_2f p), log))
  /\ (forall e,
      upstream_raises yf GetStockPrice symbol e ->
      fst (get_stock_price yf symbol log)
      = Return ("Error fetching stock price for " +:+ symbol +:+ ": " +:+ str_exn e)).
Proof.
  split.
  - intros stock data p Hstock Hdata Hlast.
    unfold_functions; unfold_blocks. rewrite Hstock, Hdata.
    unfold empty, iloc_last. rewrite Hlast.
    destruct (Close data); [discriminate | reflexivity].
  - intros e H.
    apply (upstream_raises_try_block GetStockPrice symbol e log) in H.
    simpl in H. unfold_functions. now rewrite H.
Qed.

(** C3: missing data is an ordinary answer.  An empty history, absent or empty
    recommendations and an empty news list each give the plain sentence of
    the function and leave the log as it was; for every capability function,
    either its [try] block returned and nothing was logged, or the block
    raised and exactly one record was logged. *)
Theorem missing_data_is_not_an_error (symbol : string) (log : Log) :
  (forall stock data,
      yf_Ticker yf symbol = Return stock ->
      history stock "1d" = Return data ->
      empty data = true ->
      get_stock_price yf symbol log
      = (Return ("Unable to fetch the current price for " +:+ symbol
                 +:+ ". The stock data is empty."), log))
  /\ (forall stock recs,
      yf_Ticker yf symbol = Return stock ->
      recommendations stock = Return recs ->
      recs = None \/ recs = Some [] ->
      get_analyst_recommendations float_repr yf symbol log
      = (Return ("No analyst recommendations available for " +:+ symbol), log))
  /\ (forall stock,
      yf_Ticker yf symbol = Return stock ->
      news stock = Return [] ->
      get_recent_news float_repr yf symbol log
      = (Return ("No recent news available for " +:+ symbol), log))
  /\ (forall c,
      (exists text,
          try_block float_repr yf c symbol log = (Return text, log)
          /\ run_capability float_repr yf c symbol log = (Return text, log))
      \/ (exists e record,
          try_block float_repr yf c symbol log = (Raise e, log)
          /\ snd (run_capability float_repr yf c symbol log) = log ++ [record])).
Proof.
  repeat split.
  - intros stock data Hstock Hdata Hempty.
    unfold_functions; unfold_blocks. rewrite Hstock, Hdata, Hempty. reflexivity.
  - intros stock recs Hstock Hrecs [-> | ->];
      unfold_functions; unfold_blocks; rewrite Hstock, Hrecs; reflexivity.
  - intros stock Hstock Hnews.
    unfold_functions; unfold_blocks. rewrite Hstock, Hnews. reflexivity.
  - intros c.
    pose proof (try_block_keeps_log c symbol log) as Hlog.
    destruct (try_block float_repr yf c symbol log) as [[text | e] log'] eqn:Hblock;
      simpl in Hlog; subst log'.
    + left. exists text. split; [reflexivity|].
      destruct c; simpl in *; apply try_except_return; exact Hblock.
    + right. exists e.
      destruct c; simpl in *; eexists; (split; [reflexivity|]);
        unfold_functions; rewrite Hblock; reflexivity.
Qed.

(** C10: without a 'longName' the lookup of the name raises [KeyError], which
    is caught and reported (and logged) as an error; a missing 'sector' reads
    as "Unknown" and a missing 'longBusinessSummary' as the empty string; and
    whenever the [try] block returns, the summary it shows is the first 200
    characters of the summary, or all of it when it is shorter. *)
Theorem company_info_fields (symbol : string) (log : Log) :
  (forall stock d,
      yf_Ticker yf symbol = Return stock ->
      info stock = Return d ->
      d !! "longName" = None ->
      get_company_info float_repr yf symbol log
      = (Return ("Error fetching company info for " +:+ symbol +:+ ": 'longName'"),
         log ++ ["Error fetching company info for " +:+ symbol +:+ ": 'longName'"]))
  /\ (forall stock d longName summary,
      yf_Ticker yf symbol = Return stock ->
      info stock = Return d ->
      d !! "longName" = Some longName ->
      d !! "sector" = None ->
      dict_get d "longBusinessSummary" (PyStr "") = PyStr summary ->
      get_company_info float_repr yf symbol log
      = (Return (py_str float_repr longName +:+ " (" +:+ symbol
                 +:+ ") is in the Unknown sector. "
                 +:+ String.substring 0 200 summary +:+ "..."), log))
  /\ (forall stock d longName,
      yf_Ticker yf symbol = Return stock ->
      info stock = Return d ->
      d !! "longName" = Some longName ->
      d !! "longBusinessSummary" = None ->
      get_company_info float_repr yf symbol log
      = (Return (py_str float_repr longName +:+ " (" +:+ symbol +:+ ") is in the "
                 +:+ py_str float_repr (dict_get d "sector" (PyStr "Unknown"))
                 +:+ " sector. " +:+ "..."), log))
  /\ (forall stock d text,
      yf_Ticker yf symbol = Return stock ->
      info stock = Return d ->
      fst (get_company_info_try float_repr yf symbol log) = Return text ->
      exists longName summary,
        d !! "longName" = Some longName
        /\ dict_get d "longBusinessSummary" (PyStr "") = PyStr summary
        /\ text = py_str float_repr longName +:+ " (" +:+ symbol +:+ ") is in the "
                  +:+ py_str float_repr (dict_get d "sector" (PyStr "Unknown"))
                  +:+ " sector. " +:+ String.substring 0 200 summary +:+ "..."
        /\ (String.length (String.substring 0 200 summary) <= 200)%nat
        /\ (exists rest, summary = String.substring 0 200 summary +:+ rest)
        /\ ((String.length summary <= 200)%nat ->
            String.substring 0 200 summary = summary)).
Proof.
  repeat split.
  - intros stock d Hstock Hinfo Hname.
    unfold_functions; unfold_blocks. rewrite Hstock, Hinfo.
    unfold getitem. rewrite Hname. reflexivity.
  - intros stock d longName summary Hstock Hinfo Hname Hsector Hsummary.
    unfold_functions; unfold_blocks. rewrite Hstock, Hinfo.
    unfold getitem. rewrite Hname, Hsummary.
    unfold dict_get. rewrite Hsector. reflexivity.
  - intros stock d longName Hstock Hinfo Hname Hsummary.
    unfold_functions; unfold_blocks. rewrite Hstock, Hinfo.
    unfold getitem. rewrite Hname.
    unfold dict_get at 1. rewrite Hsummary. reflexivity.
  - intros stock d text Hstock Hinfo.
    unfold_blocks. rewrite Hstock, Hinfo. unfold getitem.
    destruct (d !! "longName") as [longName|]; [|discriminate].
    destruct (dict_get d "longBusinessSummary" (PyStr "")) as [|summary|f]; simpl;
      try discriminate.
    intros [= <-]. exists longName, summary.
    repeat split; auto using substring_length, substring_prefix, substring_short.
Qed.

End CapabilityFacts.

(** *** The statements at concrete inputs *)

Example format_2f_150 : format_2f (S754_finite false 75 1) = "150.00".
Proof. reflexivity. Qed.

Example format_2f_tie_to_even : format_2f (S754_finite false 1 (-3)) = "0.12".
Proof. reflexivity. Qed.

Example format_2f_tie_to_odd : format_2f (S754_finite false 3 (-3)) = "0.38".
Proof. reflexivity. Qed.

Example format_2f_small_negative : format_2f (S754_finite true 1 (-10)) = "-0.00".
Proof. reflexivity. Qed.

(** 0.1 is [0x1.999999999999ap-4]. *)
Example format_2f_tenth : format_2f (S754_finite false 7205759403792794 (-56)) = "0.10".
Proof. reflexivity. Qed.

Example get_stock_price_AAPL :
  get_stock_price yf_150 "AAPL" [] = (Return "The current price of AAPL is $150.00", []).
Proof. reflexivity. Qed.

Example get_stock_price_down :
  get_stock_price yf_down "AAPL" []
  = (Return "Error fetching stock price for AAPL: connection refused",
     ["Error fetching stock price for AAPL: connection refused"]).
Proof. reflexivity. Qed.

Lemma upstream_failure_is_reported_witness :
  upstream_raises yf_down GetIndustryComparison "AAPL" connection_error
  /\ exists text,
      fst (run_capability no_repr yf_down GetIndustryComparison "AAPL" []) = Return text
      /\ contains "AAPL" text
      /\ contains "connection refused" text
      /\ (String.prefix "Error fetching " text = true
          \/ String.prefix "Unable to fetch " text = true).
Proof.
  assert (H : upstream_raises yf_down GetIndustryComparison "AAPL" connection_error)
    by (left; reflexivity).
  split; [exact H|].
  exact (upstream_failure_is_reported no_repr yf_down GetIndustryComparison "AAPL"
           connection_error [] H).
Defined.

Lemma get_stock_price_strings_witness :
  get_stock_price yf_150 "AAPL" [] = (Return "The current price of AAPL is $150.00", [])
  /\ fst (get_stock_price yf_down "AAPL" [])
     = Return "Error fetching stock price for AAPL: connection refused".
Proof.
  split.
  - refine (proj1 (get_stock_price_strings no_repr yf_150 "AAPL" []) _ _ _ eq_refl eq_refl eq_refl).
  - exact (proj2 (get_stock_price_strings no_repr yf_down "AAPL" []) connection_error
             (or_introl eq_refl)).
Defined.

Lemma missing_data_is_not_an_error_witness :
  get_stock_price yf_quiet "AAPL" []
  = (Return "Unable to fetch the current price for AAPL. The stock data is empty.", [])
  /\ get_analyst_recommendations no_repr yf_quiet "AAPL" []
     = (Return "No analyst recommendations available for AAPL", [])
  /\ get_recent_news no_repr yf_quiet "AAPL" []
     = (Return "No recent news available for AAPL", []).
Proof.
  pose proof (missing_data_is_not_an_error no_repr yf_quiet "AAPL" [])
    as (Hprice & Hrecs & Hnews & _).
  split; [|split].
  - exact (Hprice _ _ eq_refl eq_refl eq_refl).
  - exact (Hrecs _ _ eq_refl eq_refl (or_introl eq_refl)).
  - exact (Hnews _ eq_refl eq_refl).
Defined.

Lemma company_info_fields_witness :
  get_company_info no_repr yf_unnamed "AAPL" []
  = (Return "Error fetching company info for AAPL: 'longName'",
     ["Error fetching company info for AAPL: 'longName'"])
  /\ get_company_info no_repr yf_named "AAPL" []
     = (Return ("Apple Inc. (AAPL) is in the Unknown sector. "
                +:+ str_repeat "0123456789" 20 +:+ "..."), []).
Proof.
  split.
  - refine (proj1 (company_info_fields no_repr yf_unnamed "AAPL" []) _ _ eq_refl eq_refl _).
    reflexivity.
  - refine (proj1 (proj2 (company_info_fields no_repr yf_named "AAPL" []))
              _ _ (PyStr "Apple Inc.") long_summary eq_refl eq_refl _ _ _); reflexivity.
Defined.

(** ** The scripts *)

Section ScriptFacts.

Variable Document : Type.
Variable Index : Type.
Variable from_documents : list Document -> outcome Index.
Variable Coordinator : Type.
Variable coordinate :
  list ToolMetadata -> string -> Coordinator -> outcome string * Coordinator.

Abbreviation world := (World Document Index Coordinator).

Lemma with_run_nil (w : world) : with_run (coordinator w) [] w = w.
Proof. destruct w. unfold with_run. simpl. now rewrite app_nil_r. Qed.

Lemma with_run_with_run (c c' : Coordinator) (evs evs' : list event) (w : world) :
  with_run c' evs' (with_run c evs w) = with_run c' (evs ++ evs') w.
Proof. unfold with_run. simpl. now rewrite app_assoc. Qed.

Lemma answered_length (tools : list ToolMetadata) (c c' : Coordinator)
  (requests answers : list string) :
  answered coordinate tools c requests answers c' -> length requests = length answers.
Proof. induction 1; simpl; congruence. Qed.

(** One turn of the loop on a request that is answered. *)
Lemma loop_body_answered (l : LocalLauncher) (q a : string) (c' : Coordinator) (w : world) :
  coordinate (meta_tools l) q (coordinator w) = (Return a, c') ->
  bind (print ("Query: " +:+ q))
    (fun _ => bind (launch_single coordinate l q)
       (fun result => print ("Result: " +:+ result +:+ newline))) w
  = (Return tt, with_run c' (exchange q a) w).
Proof.
  intros H. unfold bind, print, launch_single. simpl. rewrite H. simpl.
  unfold with_run, exchange, emit, set_coordinator. simpl.
  now rewrite <- !app_assoc.
Qed.

(** One turn of the loop on a request for which the coordinator raises. *)
Lemma loop_body_raises (l : LocalLauncher) (q : string) (e : exn) (c' : Coordinator) (w : world) :
  coordinate (meta_tools l) q (coordinator w) = (Raise e, c') ->
  bind (print ("Query: " +:+ q))
    (fun _ => bind (launch_single coordinate l q)
       (fun result => print ("Result: " +:+ result +:+ newline))) w
  = (Raise e, with_run c' [Printed ("Query: " +:+ q); Submitted q] w).
Proof.
  intros H. unfold bind, print, launch_single. simpl. rewrite H. simpl.
  unfold with_run, emit, set_coordinator. simpl.
  now rewrite <- !app_assoc.
Qed.

Lemma run_queries_answered (l : LocalLauncher) (qs answers : list string)
  (c' : Coordinator) (w : world) :
  answered coordinate (meta_tools l) (coordinator w) qs answers c' ->
  run_queries coordinate l qs w
  = (Return tt, with_run c' (concat (zip_with exchange qs answers)) w).
Proof.
  intros H. remember (coordinator w) as c eqn:Hc. revert w Hc.
  induction H as [c | c c1 c2 q a qs answers Hq _ IH]; intros w ->.
  - simpl. unfold ret. now rewrite with_run_nil.
  - unfold run_queries in *. simpl for_each. unfold bind at 1.
    rewrite (loop_body_answered l q a c1 w Hq).
    rewrite (IH (with_run c1 (exchange q a) w) eq_refl).
    now rewrite with_run_with_run.
Qed.

Lemma run_queries_raises (l : LocalLauncher) (qs answers : list string) (q : string)
  (rest : list string) (e : exn) (c1 c2 : Coordinator) (w : world) :
  answered coordinate (meta_tools l) (coordinator w) qs answers c1 ->
  coordinate (meta_tools l) q c1 = (Raise e, c2) ->
  run_queries coordinate l (qs ++ q :: rest) w
  = (Raise e,
     with_run c2
       (concat (zip_with exchange qs answers) ++ [Printed ("Query: " +:+ q); Submitted q]) w).
Proof.
  intros H. remember (coordinator w) as c eqn:Hc. revert w Hc.
  induction H as [c | c c1' c2' q' a qs answers Hq _ IH]; intros w -> Hraise.
  - unfold run_queries. simpl. unfold bind at 1.
    now rewrite (loop_body_raises l q e c2 w Hraise).
  - unfold run_queries in *. simpl app. simpl for_each. unfold bind at 1.
    rewrite (loop_body_answered l q' a c1' w Hq).
    rewrite (IH (with_run c1' (exchange q' a) w) eq_refl Hraise).
    rewrite with_run_with_run. reflexivity.
Qed.

(** *** The credential check *)

Lemma load_dotenv_lookup (dotenv env : gmap string string) (key : string) :
  load_dotenv dotenv env !! key
  = match env !! key with
    | Some v => Some v
    | None => dotenv !! key
    end.
Proof.
  unfold load_dotenv. rewrite lookup_union.
  destruct (env !! key), (dotenv !! key); reflexivity.
Qed.

Lemma configure_missing (dotenv env : gmap string string) :
  load_dotenv dotenv env !! "OPENAI_API_KEY" = None
  \/ load_dotenv dotenv env !! "OPENAI_API_KEY" = Some "" ->
  configure dotenv env
  = (Raise (Exn ValueError "OPENAI_API_KEY not found in .env file"), load_dotenv dotenv env).
Proof. intros [H | H]; unfold configure; now rewrite H. Qed.

Lemma configure_present (dotenv env : gmap string string) (key : string) :
  load_dotenv dotenv env !! "OPENAI_API_KEY" = Some key ->
  key <> "" ->
  configure dotenv env
  = (Return tt,
     <["OPENAI_BASE_URL" := api_base]>
       (<["OPENAI_API_KEY" := key]> (load_dotenv dotenv env))).
Proof.
  intros H Hkey. unfold configure. rewrite H.
  destruct (String.eqb_spec key ""); [contradiction | reflexivity].
Qed.

(** *** [load_and_index_data] *)

Lemma restore_both (l u : Index) (w : world) :
  restorable (storage w) "./storage/lyft" = Some l ->
  restorable (storage w) "./storage/uber" = Some u ->
  load_and_index_data from_documents w = (Return (l, u), w).
Proof.
  unfold restorable. intros Hl Hu.
  unfold load_and_index_data, try_except, bind, StorageContext_from_defaults,
    load_index_from_storage.
  destruct (storage w !! "./storage/lyft") as [[|l' [|]]|]; try discriminate.
  injection Hl as ->. simpl.
  destruct (storage w !! "./storage/uber") as [[|u' [|]]|]; try discriminate.
  injection Hu as ->. reflexivity.
Qed.

Lemma rebuild_both (lyft_docs uber_docs : list Document) (l u : Index) (w : world) :
  restorable (storage w) "./storage/lyft" = None
  \/ restorable (storage w) "./storage/uber" = None ->
  files w !! "./data/10k/lyft_2021.pdf" = Some lyft_docs ->
  files w !! "./data/10k/uber_2021.pdf" = Some uber_docs ->
  from_documents lyft_docs = Return l ->
  from_documents uber_docs = Return u ->
  load_and_index_data from_documents w
  = (Return (l, u),
     set_storage
       (<["./storage/uber" := [u] ]> (<["./storage/lyft" := [l] ]> (storage w))) w).
Proof.
  unfold restorable. intros Hmissing Hlf Huf Hl Hu.
  unfold load_and_index_data, try_except, bind, StorageContext_from_defaults,
    load_index_from_storage, load_data, call, persist, raise, ret.
  destruct (storage w !! "./storage/lyft") as [[|l' [|]]|]; simpl;
    try (now rewrite Hlf, Huf, Hl, Hu).
  destruct (storage w !! "./storage/uber") as [[|u' [|]]|]; simpl;
    try (now rewrite Hlf, Huf, Hl, Hu).
  destruct Hmissing; discriminate.
Qed.

Lemma restorable_persisted (l u : Index) (st : gmap string (list Index)) :
  restorable (<["./storage/uber" := [u] ]> (<["./storage/lyft" := [l] ]> st))
    "./storage/lyft" = Some l
  /\ restorable (<["./storage/uber" := [u] ]> (<["./storage/lyft" := [l] ]> st))
       "./storage/uber" = Some u.
Proof.
  unfold restorable. split.
  - rewrite lookup_insert_ne by discriminate. now rewrite lookup_insert_eq.
  - now rewrite lookup_insert_eq.
Qed.

(** *** The launcher of RAG.py *)

Lemma setup_agents_and_services_returns (l u : Index) (w : world) :
  setup_agents_and_services (setup_query_engines_and_tools l u) w = (Return RAG_launcher, w).
Proof. reflexivity. Qed.

Lemma main_after_indexing (l u : Index) (w w' : world) :
  load_and_index_data from_documents w = (Return (l, u), w') ->
  main from_documents coordinate w = run_queries coordinate RAG_launcher queries w'.
Proof.
  intros H. unfold main, bind at 1. rewrite H. simpl.
  unfold bind at 1. now rewrite setup_agents_and_services_returns.
Qed.

(** *** The statements about the scripts *)

(** C4: the check reads the key with [os.getenv] as the script starts, after
    [load_dotenv()].  When the variable is absent or empty there, both scripts
    raise [ValueError] at once: nothing is printed, nothing is submitted to
    the coordinator and no index is read or written (the world is the initial
    one, but for the variables [load_dotenv] added).  When the variable holds
    a key, the check returns with the key and the base URL in the
    environment, and the script goes on with its work. *)
Theorem missing_key_is_fatal
  (float_repr : float -> string) (yf : yfinance) (dotenv : gmap string string) (w : world) :
  (load_dotenv dotenv (environ w) !! "OPENAI_API_KEY" = None
   \/ load_dotenv dotenv (environ w) !! "OPENAI_API_KEY" = Some "" ->
   RAG_script from_documents coordinate dotenv w
   = (Raise (Exn ValueError "OPENAI_API_KEY not found in .env file"),
      set_environ (load_dotenv dotenv (environ w)) w)
   /\ main_script float_repr yf coordinate dotenv w
      = (Raise (Exn ValueError "OPENAI_API_KEY not found in .env file"),
         set_environ (load_dotenv dotenv (environ w)) w))
  /\ (forall key,
      load_dotenv dotenv (environ w) !! "OPENAI_API_KEY" = Some key ->
      key <> "" ->
      exists env,
        load_configuration dotenv w = (Return tt, set_environ env w)
        /\ env !! "OPENAI_API_KEY" = Some key
        /\ env !! "OPENAI_BASE_URL" = Some api_base
        /\ RAG_script from_documents coordinate dotenv w
           = main from_documents coordinate (set_environ env w)
        /\ main_script float_repr yf coordinate dotenv w
           = bind (launch_single coordinate (launcher float_repr yf) request)
               (fun result => print ("Result: " +:+ result)) (set_environ env w)).
Proof.
  split.
  - intros Hkey.
    assert (Hconf : load_configuration dotenv w
                    = (Raise (Exn ValueError "OPENAI_API_KEY not found in .env file"),
                       set_environ (load_dotenv dotenv (environ w)) w)).
    { unfold load_configuration. now rewrite (configure_missing _ _ Hkey). }
    unfold RAG_script, main_script.
    split; now apply bind_raise.
  - intros key Hkey Hne.
    assert (Hconf : load_configuration dotenv w
                    = (Return tt,
                       set_environ
                         (<["OPENAI_BASE_URL" := api_base]>
                            (<["OPENAI_API_KEY" := key]> (load_dotenv dotenv (environ w))))
                         w)).
    { unfold load_configuration. now rewrite (configure_present _ _ key Hkey Hne). }
    eexists. split; [exact Hconf|].
    split; [rewrite lookup_insert_ne by discriminate; apply lookup_insert_eq|].
    split; [apply lookup_insert_eq|].
    unfold RAG_script, main_script.
    split; now rewrite (bind_return _ _ _ _ _ Hconf).
Qed.

(** C5: the loop handles the requests one after the other.  When the
    coordinator answers them all, the trace is, request by request in
    submission order: the query printed, the request submitted, its answer
    printed.  So each request is submitted after everything of the requests
    before it, their printed answers included, and before anything of the
    requests after it. *)
Theorem requests_are_processed_in_order
  (l : LocalLauncher) (requests answers : list string) (c' : Coordinator) (w : world) :
  answered coordinate (meta_tools l) (coordinator w) requests answers c' ->
  run_queries coordinate l requests w
  = (Return tt, with_run c' (concat (zip_with exchange requests answers)) w)
  /\ (forall i q a,
      requests !! i = Some q ->
      answers !! i = Some a ->
      concat (zip_with exchange requests answers)
      = concat (zip_with exchange (take i requests) (take i answers))
        ++ [ Printed ("Query: " +:+ q); Submitted q;
             Printed ("Result: " +:+ a +:+ newline) ]
        ++ concat (zip_with exchange (drop (S i) requests) (drop (S i) answers))).
Proof.
  intros H. split; [now apply run_queries_answered|].
  intros i q a Hq Ha.
  rewrite <- (take_drop_middle requests i q Hq) at 1.
  rewrite <- (take_drop_middle answers i a Ha) at 1.
  rewrite zip_with_app.
  - rewrite concat_app. simpl. reflexivity.
  - rewrite !length_take, (answered_length _ _ _ _ _ H). reflexivity.
Qed.

(** C6, as the code has it: nothing catches an exception of the coordinator.
    When the coordinator raises on a request, the loop of RAG.py ends with
    that exception: the requests before it were answered and printed, the
    failing request's query was printed and submitted, and that is all: no
    outcome is printed for it and no later request is submitted.  In main.py
    the exception of the one launch ends the script before anything is
    printed. *)
Theorem coordinator_failure_ends_the_session (w : world) :
  (forall l requests answers q rest e c1 c2,
      answered coordinate (meta_tools l) (coordinator w) requests answers c1 ->
      coordinate (meta_tools l) q c1 = (Raise e, c2) ->
      run_queries coordinate l (requests ++ q :: rest) w
      = (Raise e,
         with_run c2
           (concat (zip_with exchange requests answers)
            ++ [Printed ("Query: " +:+ q); Submitted q]) w))
  /\ (forall float_repr yf e c2,
      coordinate (main_meta_tools float_repr yf) request (coordinator w) = (Raise e, c2) ->
      bind (launch_single coordinate (launcher float_repr yf) request)
        (fun result => print ("Result: " +:+ result)) w
      = (Raise e, with_run c2 [Submitted request] w)).
Proof.
  split.
  - intros l requests answers q rest e c1 c2. apply run_queries_raises.
  - intros float_repr yf e c2 H. unfold bind, launch_single. simpl. now rewrite H.
Qed.

(** C7: when both directories hold a persisted index, the two indexes are
    restored and nothing else changes; when the restoration of one of them
    fails, both indexes are built from the two PDF files and persisted under
    "./storage/lyft" and "./storage/uber", from where the next call restores
    them.  Either way the pair (lyft_index, uber_index) is returned. *)
Theorem indexes_are_restored_or_rebuilt (w : world) :
  (forall l u,
      restorable (storage w) "./storage/lyft" = Some l ->
      restorable (storage w) "./storage/uber" = Some u ->
      load_and_index_data from_documents w = (Return (l, u), w))
  /\ (forall lyft_docs uber_docs l u,
      restorable (storage w) "./storage/lyft" = None
      \/ restorable (storage w) "./storage/uber" = None ->
      files w !! "./data/10k/lyft_2021.pdf" = Some lyft_docs ->
      files w !! "./data/10k/uber_2021.pdf" = Some uber_docs ->
      from_documents lyft_docs = Return l ->
      from_documents uber_docs = Return u ->
      load_and_index_data from_documents w
      = (Return (l, u),
         set_storage
           (<["./storage/uber" := [u] ]> (<["./storage/lyft" := [l] ]> (storage w))) w)
      /\ load_and_index_data from_documents
           (set_storage
              (<["./storage/uber" := [u] ]> (<["./storage/lyft" := [l] ]> (storage w))) w)
         = (Return (l, u),
            set_storage
              (<["./storage/uber" := [u] ]> (<["./storage/lyft" := [l] ]> (storage w))) w)).
Proof.
  split.
  - intros l u. apply restore_both.
  - intros lyft_docs uber_docs l u Hmissing Hlf Huf Hl Hu.
    split; [now apply (rebuild_both lyft_docs uber_docs)|].
    apply restore_both; simpl; apply restorable_persisted.
Qed.

(** C9: one handler covers both restorations.  When the Lyft index is
    restored and the restoration of the Uber index fails, the restored Lyft
    index is dropped: both indexes are built from the PDF files, the pair
    returned is the pair of the new indexes, and both directories are written,
    the new Lyft index over the old one.  The same happens when the
    restoration of the Lyft index is the one that fails. *)
Theorem partial_restore_rebuilds_both
  (old : Index) (lyft_docs uber_docs : list Document) (l u : Index) (w : world) :
  (restorable (storage w) "./storage/lyft" = Some old
   /\ restorable (storage w) "./storage/uber" = None)
  \/ restorable (storage w) "./storage/lyft" = None ->
  files w !! "./data/10k/lyft_2021.pdf" = Some lyft_docs ->
  files w !! "./data/10k/uber_2021.pdf" = Some uber_docs ->
  from_documents lyft_docs = Return l ->
  from_documents uber_docs = Return u ->
  load_and_index_data from_documents w
  = (Return (l, u),
     set_storage
       (<["./storage/uber" := [u] ]> (<["./storage/lyft" := [l] ]> (storage w))) w)
  /\ restorable
       (<["./storage/uber" := [u] ]> (<["./storage/lyft" := [l] ]> (storage w)))
       "./storage/lyft" = Some l.
Proof.
  intros Hpartial Hlf Huf Hl Hu. split; [|apply restorable_persisted].
  apply (rebuild_both lyft_docs uber_docs); auto.
  destruct Hpartial as [[_ H] | H]; auto.
Qed.

(** RAG.py from a state where both indexes can be restored and the
    coordinator answers the two queries. *)
Corollary main_answers_in_order (l u : Index) (answers : list string)
  (c' : Coordinator) (w : world) :
  restorable (storage w) "./storage/lyft" = Some l ->
  restorable (storage w) "./storage/uber" = Some u ->
  answered coordinate (meta_tools RAG_launcher) (coordinator w) queries answers c' ->
  main from_documents coordinate w
  = (Return tt, with_run c' (concat (zip_with exchange queries answers)) w).
Proof.
  intros Hl Hu Hanswered.
  rewrite (main_after_indexing l u w w (restore_both l u w Hl Hu)).
  now apply run_queries_answered.
Qed.

End ScriptFacts.

(** ** Registries *)

Section RegistryFacts.

Variable float_repr : float -> string.
Variable yf : yfinance.
Variable Index : Type.

Lemma filter_name_absent (tools : list ToolMetadata) (n : string) :
  ~ In n (map name tools) -> filter (fun t => name t = n) tools = [].
Proof.
  induction tools as [|a tools IH]; intros Habsent; [reflexivity|].
  simpl in Habsent.
  rewrite filter_cons_False by (intros Heq; apply Habsent; now left).
  apply IH. intros Hin. apply Habsent. now right.
Qed.

(** In a registry without two descriptors of one name, looking a registered
    name up finds the descriptor registered under it, and no other descriptor
    carries that name. *)
Lemma unique_name_lookup (tools : list ToolMetadata) (t : ToolMetadata) :
  NoDup (map name tools) ->
  In t tools ->
  filter (fun t' => name t' = name t) tools = [t]
  /\ get_tool_by_name tools (name t) = Return t.
Proof.
  intros Hnodup Hin.
  assert (Hfilter : filter (fun t' => name t' = name t) tools = [t]).
  { induction tools as [|a tools IH]; [contradiction|].
    simpl in Hnodup. apply NoDup_cons in Hnodup as [Hfresh Hnodup].
    rewrite list_elem_of_In in Hfresh.
    destruct Hin as [-> | Hin].
    - rewrite filter_cons_True by reflexivity. f_equal.
      now apply filter_name_absent.
    - rewrite filter_cons_False; [now apply IH|].
      intros Heq. apply Hfresh. rewrite Heq. now apply in_map. }
  split; [exact Hfilter|].
  unfold get_tool_by_name. now rewrite Hfilter.
Qed.

Lemma NoDup_names (names : list string) : bool_decide (NoDup names) = true -> NoDup names.
Proof. apply bool_decide_eq_true_1. Qed.

(** C8: the two descriptors of RAG.py are named "lyft_10k" and "uber_10k";
    the six tools of main.py are named after their six functions; in each
    registry no name occurs twice, and looking up the name of a registered
    descriptor finds that descriptor, which is the only one of that name. *)
Theorem capability_names_are_unique (lyft_index uber_index : Index) :
  map name (map tool_metadata (setup_query_engines_and_tools lyft_index uber_index))
  = ["lyft_10k"; "uber_10k"]
  /\ NoDup (map name (map tool_metadata
                        (setup_query_engines_and_tools lyft_index uber_index)))
  /\ map name (main_meta_tools float_repr yf)
     = [ "get_stock_price"; "get_company_info"; "get_financial_ratios";
         "get_analyst_recommendations"; "get_recent_news"; "get_industry_comparison" ]
  /\ map name (map metadata (tool_service_tools float_repr yf))
     = map fn_name (map fn (tool_service_tools float_repr yf))
  /\ NoDup (map name (main_meta_tools float_repr yf))
  /\ (forall t,
      In t (map tool_metadata (setup_query_engines_and_tools lyft_index uber_index)) ->
      filter (fun t' => name t' = name t)
        (map tool_metadata (setup_query_engines_and_tools lyft_index uber_index)) = [t]
      /\ get_tool_by_name
           (map tool_metadata (setup_query_engines_and_tools lyft_index uber_index))
           (name t) = Return t)
  /\ (forall t,
      In t (main_meta_tools float_repr yf) ->
      filter (fun t' => name t' = name t) (main_meta_tools float_repr yf) = [t]
      /\ get_tool_by_name (main_meta_tools float_repr yf) (name t) = Return t).
Proof.
  assert (Hrag : NoDup (map name (map tool_metadata
                   (setup_query_engines_and_tools lyft_index uber_index))))
    by (apply NoDup_names; reflexivity).
  assert (Hmain : NoDup (map name (main_meta_tools float_repr yf)))
    by (apply NoDup_names; reflexivity).
  repeat split; try reflexivity; try assumption;
    now apply unique_name_lookup.
Qed.

End RegistryFacts.

(** ** The statements at concrete inputs, continued *)

Lemma capability_names_are_unique_witness :
  get_tool_by_name (main_meta_tools no_repr yf_down) "get_recent_news"
  = Return (metadata (recent_news_tool no_repr yf_down))
  /\ filter (fun t => name t = "uber_10k")
       (map tool_metadata (setup_query_engines_and_tools (Index := unit) tt tt))
     = [ {| name := "uber_10k";
            description :=
              "Provides information about Uber financials for year 2021. "
              +:+ "Use a detailed plain text question as input to the tool." |} ].
Proof.
  pose proof (capability_names_are_unique no_repr yf_down unit tt tt)
    as (_ & _ & _ & _ & _ & Hrag & Hmain).
  split.
  - refine (proj2 (Hmain (metadata (recent_news_tool no_repr yf_down)) _)).
    simpl. tauto.
  - refine (proj1 (Hrag {| name := "uber_10k"; description := _ |} _)).
    simpl. tauto.
Defined.

Lemma missing_key_is_fatal_witness :
  RAG_script index_documents failing_coordinator ∅ (unconfigured tt)
  = (Raise (Exn ValueError "OPENAI_API_KEY not found in .env file"), unconfigured tt)
  /\ exists env,
      load_configuration ∅ (first_run tt) = (Return tt, set_environ env (first_run tt))
      /\ env !! "OPENAI_API_KEY" = Some "sk-test"
      /\ env !! "OPENAI_BASE_URL" = Some "https://api.aigc369.com/v1".
Proof.
  split.
  - refine (proj1 (proj1 (missing_key_is_fatal string (list string) index_documents unit
                            failing_coordinator no_repr yf_down ∅ (unconfigured tt)) _)).
    left. reflexivity.
  - assert (Hfound : load_dotenv ∅ (environ (first_run tt)) !! "OPENAI_API_KEY"
                      = Some "sk-test") by reflexivity.
    assert (Hne : "sk-test" <> "") by discriminate.
    destruct (proj2 (missing_key_is_fatal string (list string) index_documents unit
                       failing_coordinator no_repr yf_down ∅ (first_run tt))
                "sk-test" Hfound Hne)
      as (env & Hconf & Hkey & Hbase & _).
    exists env. auto.
Defined.

Lemma requests_are_processed_in_order_witness :
  answered numbered_coordinator [] 0%nat ["Q1"; "Q2"] ["A1"; "A2"] 2%nat
  /\ run_queries numbered_coordinator
       {| meta_tools := []; agent_description := ""; service_name := "" |}
       ["Q1"; "Q2"] (first_run 0%nat)
     = (Return tt,
        {| environ := configured_environ; files := pdfs; storage := ∅;
           coordinator := 2%nat;
           trace := [ Printed "Query: Q1"; Submitted "Q1";
                      Printed ("Result: A1" +:+ newline);
                      Printed "Query: Q2"; Submitted "Q2";
                      Printed ("Result: A2" +:+ newline) ] |}).
Proof.
  assert (H : answered numbered_coordinator [] 0%nat ["Q1"; "Q2"] ["A1"; "A2"] 2%nat).
  { eapply answered_cons; [reflexivity|].
    eapply answered_cons; [reflexivity|]. apply answered_nil. }
  split; [exact H|].
  exact (proj1 (requests_are_processed_in_order string (list string) nat
                  numbered_coordinator
                  {| meta_tools := []; agent_description := ""; service_name := "" |}
                  ["Q1"; "Q2"] ["A1"; "A2"] 2%nat (first_run 0%nat) H)).
Defined.


(** C6, as the spec states it, fails: with a coordinator whose language-model
    call fails, RAG.py ends with the exception at the first request.  Its
    query line is the only thing printed, no outcome is reported for it, and
    the second request is never submitted.  main.py ends the same way with
    nothing printed at all. *)
Lemma coordinator_failure_is_not_contained :
  fst (RAG_script index_documents failing_coordinator ∅ (first_run tt)) = Raise llm_error
  /\ trace (snd (RAG_script index_documents failing_coordinator ∅ (first_run tt)))
     = [ Printed "Query: What are the risk factors for Uber?";
         Submitted "What are the risk factors for Uber?" ]
  /\ fst (main_script no_repr yf_150 failing_coordinator ∅ (first_run tt)) = Raise llm_error
  /\ trace (snd (main_script no_repr yf_150 failing_coordinator ∅ (first_run tt)))
     = [ Submitted request ].
Proof. repeat split; vm_compute; reflexivity. Qed.

Lemma coordinator_failure_ends_the_session_witness :
  run_queries failing_coordinator RAG_launcher queries (first_run tt)
  = (Raise llm_error,
     {| environ := configured_environ; files := pdfs; storage := ∅;
        coordinator := tt;
        trace := [ Printed "Query: What are the risk factors for Uber?";
                   Submitted "What are the risk factors for Uber?" ] |})
  /\ bind (launch_single failing_coordinator (launcher no_repr yf_150) request)
       (fun result => print ("Result: " +:+ result)) (first_run tt)
     = (Raise llm_error,
        {| environ := configured_environ; files := pdfs; storage := ∅;
           coordinator := tt; trace := [ Submitted request ] |}).
Proof.
  pose proof (coordinator_failure_ends_the_session string (list string) unit
                failing_coordinator (first_run tt)) as [Hloop Hmain].
  split.
  - exact (Hloop RAG_launcher [] [] "What are the risk factors for Uber?"
             ["What was Lyft's revenue growth in 2021?"] llm_error tt tt
             (answered_nil failing_coordinator _ tt) eq_refl).
  - exact (Hmain no_repr yf_150 llm_error tt eq_refl).
Defined.

Lemma indexes_are_restored_or_rebuilt_witness :
  load_and_index_data index_documents (first_run tt)
  = (Return (["Lyft 10-K for 2021"], ["Uber 10-K for 2021"]),
     set_storage
       (<["./storage/uber" := [ ["Uber 10-K for 2021"] ] ]>
          (<["./storage/lyft" := [ ["Lyft 10-K for 2021"] ] ]> ∅))
       (first_run tt))
  /\ load_and_index_data index_documents
       (set_storage
          (<["./storage/uber" := [ ["Uber 10-K for 2021"] ] ]>
             (<["./storage/lyft" := [ ["Lyft 10-K for 2021"] ] ]> ∅))
          (first_run tt))
     = (Return (["Lyft 10-K for 2021"], ["Uber 10-K for 2021"]),
        set_storage
          (<["./storage/uber" := [ ["Uber 10-K for 2021"] ] ]>
             (<["./storage/lyft" := [ ["Lyft 10-K for 2021"] ] ]> ∅))
          (first_run tt)).
Proof.
  exact (proj2 (indexes_are_restored_or_rebuilt string (list string) index_documents
                  unit (first_run tt))
           ["Lyft 10-K for 2021"] ["Uber 10-K for 2021"]
           ["Lyft 10-K for 2021"] ["Uber 10-K for 2021"]
           (or_introl eq_refl) eq_refl eq_refl eq_refl eq_refl).
Defined.

Lemma partial_restore_rebuilds_both_witness :
  restorable (storage (half_restored tt)) "./storage/lyft" = Some ["Lyft 10-K for 2020"]
  /\ load_and_index_data index_documents (half_restored tt)
     = (Return (["Lyft 10-K for 2021"], ["Uber 10-K for 2021"]),
        set_storage
          (<["./storage/uber" := [ ["Uber 10-K for 2021"] ] ]>
             (<["./storage/lyft" := [ ["Lyft 10-K for 2021"] ] ]>
                (storage (half_restored tt))))
          (half_restored tt)).
Proof.
  assert (Hold : restorable (storage (half_restored tt)) "./storage/lyft"
                 = Some ["Lyft 10-K for 2020"]) by reflexivity.
  assert (Hnone : restorable (storage (half_restored tt)) "./storage/uber" = None)
    by reflexivity.
  split; [exact Hold|].
  exact (proj1 (partial_restore_rebuilds_both string (list string) index_documents unit
                  ["Lyft 10-K for 2020"] ["Lyft 10-K for 2021"] ["Uber 10-K for 2021"]
                  ["Lyft 10-K for 2021"] ["Uber 10-K for 2021"] (half_restored tt)
                  (or_introl (conj Hold Hnone)) eq_refl eq_refl eq_refl eq_refl)).
Defined.

(** ** More about the capability functions *)

Ltac unfold_capability :=
  unfold run_capability, get_stock_price, get_company_info, get_financial_ratios,
    get_analyst_recommendations, get_recent_news, get_industry_comparison,
    try_except, logging_error.

Lemma dict_get_Some (d : gmap string pyval) (key : string) (v default : pyval) :
  d !! key = Some v -> dict_get d key default = v.
Proof. intros H. unfold dict_get. now rewrite H. Qed.

Lemma dict_get_None (d : gmap string pyval) (key : string) (default : pyval) :
  d !! key = None -> dict_get d key default = default.
Proof. intros H. unfold dict_get. now rewrite H. Qed.

Section CapabilityCases.

Variable float_repr : float -> string.
Variable yf : yfinance.

(** X2: every failure is logged in one format, "Error fetching {topic} for
    {symbol}: {message}", also by the two functions whose returned text is
    worded "Unable to fetch ... due to an error"; the four others return the
    logged text itself. *)
Theorem error_records_have_one_format
  (c : capability) (symbol : string) (e : exn) (log : Log) :
  fst (try_block float_repr yf c symbol log) = Raise e ->
  snd (run_capability float_repr yf c symbol log)
  = log ++ ["Error fetching " +:+ topic c +:+ " for " +:+ symbol +:+ ": " +:+ str_exn e]
  /\ fst (run_capability float_repr yf c symbol log)
     = Return
         (match c with
          | GetAnalystRecommendations | GetIndustryComparison =>
              "Unable to fetch " +:+ topic c +:+ " for " +:+ symbol
              +:+ " due to an error: " +:+ str_exn e
          | _ => "Error fetching " +:+ topic c +:+ " for " +:+ symbol +:+ ": " +:+ str_exn e
          end).
Proof.
  intros H.
  pose proof (try_block_keeps_log float_repr yf c symbol log) as Hlog.
  destruct (try_block float_repr yf c symbol log) as [[text | e'] log'] eqn:Hblock;
    simpl in H, Hlog; [discriminate|].
  injection H as ->. subst log'.
  destruct c; simpl in Hblock; unfold_capability; rewrite Hblock; split; reflexivity.
Qed.

(** *** [get_financial_ratios] *)

(** X3: a dividend yield that is a number is shown as a percentage with two
    decimals; ratios the source does not have are shown as "N/A".  Neither
    case is an error. *)
Theorem financial_ratios_text (symbol : string) (log : Log) :
  (forall stock d y,
      yf_Ticker yf symbol = Return stock ->
      info stock = Return d ->
      d !! "dividendYield" = Some (PyFloat y) ->
      get_financial_ratios float_repr yf symbol log
      = (Return (symbol +:+ " financial ratios: P/E: "
                 +:+ py_str float_repr (dict_get d "trailingPE" (PyStr "N/A"))
                 +:+ ", P/B: "
                 +:+ py_str float_repr (dict_get d "priceToBook" (PyStr "N/A"))
                 +:+ ", Dividend Yield: "
                 +:+ format_2f (SFmul prec emax y float_100) +:+ "%"), log))
  /\ (forall stock d,
      yf_Ticker yf symbol = Return stock ->
      info stock = Return d ->
      d !! "trailingPE" = None ->
      d !! "priceToBook" = None ->
      d !! "dividendYield" = None ->
      get_financial_ratios float_repr yf symbol log
      = (Return (symbol +:+ " financial ratios: P/E: N/A, P/B: N/A, Dividend Yield: N/A"),
         log)).
Proof.
  split.
  - intros stock d y Hstock Hinfo Hy.
    unfold_capability; unfold_blocks. rewrite Hstock, Hinfo.
    rewrite !(dict_get_Some d "dividendYield" _ _ Hy). reflexivity.
  - intros stock d Hstock Hinfo Hpe Hpb Hdy.
    unfold_capability; unfold_blocks. rewrite Hstock, Hinfo.
    rewrite !(dict_get_None d "trailingPE" _ Hpe), !(dict_get_None d "priceToBook" _ Hpb),
      !(dict_get_None d "dividendYield" _ Hdy).
    reflexivity.
Qed.

(** X4: once the info dictionary is fetched, the only thing that makes
    [get_financial_ratios] fail is a dividend yield that is present and is
    neither a number nor the text "N/A": [None], or another text.  The P/E and
    P/B values never do, whatever they are. *)
Theorem financial_ratios_fail_iff (symbol : string) (log : Log) (stock : Ticker)
  (d : gmap string pyval) :
  yf_Ticker yf symbol = Return stock ->
  info stock = Return d ->
  (exists e, fst (get_financial_ratios_try float_repr yf symbol log) = Raise e)
  <-> (d !! "dividendYield" = Some PyNone
       \/ exists s, d !! "dividendYield" = Some (PyStr s) /\ s <> "N/A").
Proof.
  intros Hstock Hinfo. unfold_blocks. rewrite Hstock, Hinfo.
  destruct (d !! "dividendYield") as [[|s|y]|] eqn:Hdy;
    [ rewrite !(dict_get_Some d "dividendYield" _ _ Hdy)
    | rewrite !(dict_get_Some d "dividendYield" _ _ Hdy)
    | rewrite !(dict_get_Some d "dividendYield" _ _ Hdy)
    | rewrite !(dict_get_None d "dividendYield" _ Hdy) ]; simpl.
  - split; [now left | eauto].
  - destruct (String.eqb_spec s "N/A") as [-> | Hne]; simpl.
    + split; [intros [e He]; discriminate|].
      intros [H | (s' & [= <-] & Hne)]; [discriminate | contradiction].
    + split; [|eauto]. intros _. right. now exists s.
  - split; [intros [e He]; discriminate|].
    intros [H | (s' & H & _)]; discriminate.
  - split; [intros [e He]; discriminate|].
    intros [H | (s' & H & _)]; discriminate.
Qed.

(** *** [get_industry_comparison] *)

Lemma SFltb_nan_l (x : float) : SFltb S754_nan x = false.
Proof. reflexivity. Qed.

Lemma SFltb_nan_r (x : float) : SFltb x S754_nan = false.
Proof. now destruct x. Qed.

Lemma SFltb_irrefl (x : float) : SFltb x x = false.
Proof.
  destruct x as [s | s | | s m e]; [now destruct s | now destruct s | reflexivity |].
  unfold SFltb, SFcompare. rewrite Z.compare_refl, Pos.compare_cont_refl.
  now destruct s.
Qed.

(** X5: with both P/E ratios numbers, the verdict follows their order: "lower"
    when the stock's ratio is below the industry's, "higher" when it is
    above, "in line" otherwise; both ratios are shown with two decimals, and
    nothing is logged. *)
Theorem industry_comparison_verdict (symbol : string) (log : Log) (stock : Ticker)
  (d : gmap string pyval) (pe avg : float) :
  yf_Ticker yf symbol = Return stock ->
  info stock = Return d ->
  d !! "trailingPE" = Some (PyFloat pe) ->
  d !! "industryPE" = Some (PyFloat avg) ->
  get_industry_comparison float_repr yf symbol log
  = (Return
       ((symbol +:+ " is in the "
         +:+ py_str float_repr (dict_get d "sector" (PyStr "Unknown"))
         +:+ " sector, specifically in the "
         +:+ py_str float_repr (dict_get d "industry" (PyStr "Unknown"))
         +:+ " industry. ")
        +:+ "Its P/E ratio (" +:+ format_2f pe +:+ ") is "
        +:+ (if SFltb pe avg then
               "lower than the industry average (" +:+ format_2f avg
               +:+ "), which could indicate it's undervalued compared to its peers."
             else if SFltb avg pe then
               "higher than the industry average (" +:+ format_2f avg
               +:+ "), which could indicate it's overvalued compared to its peers."
             else
               "in line with the industry average (" +:+ format_2f avg +:+ ").")),
     log).
Proof.
  intros Hstock Hinfo Hpe Havg.
  unfold_capability; unfold_blocks. rewrite Hstock, Hinfo.
  rewrite !(dict_get_Some d "trailingPE" _ _ Hpe), !(dict_get_Some d "industryPE" _ _ Havg).
  simpl. destruct (SFltb pe avg); simpl; [reflexivity|].
  destruct (SFltb avg pe); reflexivity.
Qed.

(** X6: equal ratios are "in line", and so is any comparison with a ratio that is
    not a number (NaN): it is shown as "nan", and no error is reported. *)
Theorem industry_comparison_in_line (symbol : string) (log : Log) (stock : Ticker)
  (d : gmap string pyval) (pe avg : float) :
  yf_Ticker yf symbol = Return stock ->
  info stock = Return d ->
  d !! "trailingPE" = Some (PyFloat pe) ->
  d !! "industryPE" = Some (PyFloat avg) ->
  pe = avg \/ pe = S754_nan \/ avg = S754_nan ->
  get_industry_comparison float_repr yf symbol log
  = (Return
       ((symbol +:+ " is in the "
         +:+ py_str float_repr (dict_get d "sector" (PyStr "Unknown"))
         +:+ " sector, specifically in the "
         +:+ py_str float_repr (dict_get d "industry" (PyStr "Unknown"))
         +:+ " industry. ")
        +:+ "Its P/E ratio (" +:+ format_2f pe
        +:+ ") is in line with the industry average (" +:+ format_2f avg +:+ ")."),
     log).
Proof.
  intros Hstock Hinfo Hpe Havg Hcase.
  assert (Hlt : SFltb pe avg = false /\ SFltb avg pe = false).
  { destruct Hcase as [-> | [-> | ->]];
      auto using SFltb_irrefl, SFltb_nan_l, SFltb_nan_r. }
  destruct Hlt as [Hlt Hgt].
  unfold_capability; unfold_blocks. rewrite Hstock, Hinfo.
  rewrite !(dict_get_Some d "trailingPE" _ _ Hpe), !(dict_get_Some d "industryPE" _ _ Havg).
  simpl. rewrite Hlt. simpl. rewrite Hgt. reflexivity.
Qed.

(** X7: when the source has no industry P/E, or no P/E for the stock, the function
    says that it cannot compare.  This is an answer, not an error: nothing is
    logged, whatever the other fields hold. *)
Theorem industry_comparison_lack_of_data (symbol : string) (log : Log) (stock : Ticker)
  (d : gmap string pyval) :
  yf_Ticker yf symbol = Return stock ->
  info stock = Return d ->
  d !! "trailingPE" = None \/ d !! "industryPE" = None ->
  get_industry_comparison float_repr yf symbol log
  = (Return
       ((symbol +:+ " is in the "
         +:+ py_str float_repr (dict_get d "sector" (PyStr "Unknown"))
         +:+ " sector, specifically in the "
         +:+ py_str float_repr (dict_get d "industry" (PyStr "Unknown"))
         +:+ " industry. ")
        +:+ "Unable to compare P/E ratio with industry average due to lack of data."),
     log).
Proof.
  intros Hstock Hinfo Hmissing.
  unfold_capability; unfold_blocks. rewrite Hstock, Hinfo.
  destruct Hmissing as [H | H].
  - rewrite !(dict_get_None d "trailingPE" _ H). reflexivity.
  - rewrite !(dict_get_None d "industryPE" _ H). simpl.
    rewrite andb_false_r. reflexivity.
Qed.

(** X8: once the info dictionary is fetched, [get_industry_comparison] fails
    exactly when both ratios are present (neither is the text "N/A") and they
    are not two numbers: a [None], or a text, among them. *)
Theorem industry_comparison_fails_iff (symbol : string) (log : Log) (stock : Ticker)
  (d : gmap string pyval) :
  yf_Ticker yf symbol = Return stock ->
  info stock = Return d ->
  (exists e, fst (get_industry_comparison_try float_repr yf symbol log) = Raise e)
  <-> (py_ne_str (dict_get d "trailingPE" (PyStr "N/A")) "N/A" = true
       /\ py_ne_str (dict_get d "industryPE" (PyStr "N/A")) "N/A" = true
       /\ ~ (exists pe avg,
               dict_get d "trailingPE" (PyStr "N/A") = PyFloat pe
               /\ dict_get d "industryPE" (PyStr "N/A") = PyFloat avg)).
Proof.
  intros Hstock Hinfo. unfold_blocks. rewrite Hstock, Hinfo.
  destruct (dict_get d "trailingPE" (PyStr "N/A")) as [|s|pe];
    destruct (dict_get d "industryPE" (PyStr "N/A")) as [|t|avg]; simpl;
    repeat match goal with
      | |- context [String.eqb ?a "N/A"] => destruct (String.eqb a "N/A"); simpl
      | |- context [String.ltb ?a ?b] => destruct (String.ltb a b); simpl
      | |- context [SFltb ?a ?b] => destruct (SFltb a b); simpl
      end;
    (split;
     [ intros [e He]; try discriminate;
       repeat split; try reflexivity; intros (x & y & Hx & Hy); discriminate
     | intros (H1 & H2 & H3); try discriminate; eauto;
       exfalso; apply H3; eauto ]).
Qed.

(** *** [get_analyst_recommendations] *)

(** X9: the recommendation reported is the one of the last row of the frame,
    whatever the rows before it hold: its grade, and the date of its label. *)
Theorem analyst_recommendation_is_last_row (symbol : string) (log : Log)
  (stock : Ticker) (rows : list Series) (latest : Series) (grade : pyval) (date : string) :
  yf_Ticker yf symbol = Return stock ->
  recommendations stock = Return (Some (rows ++ [latest])) ->
  cells latest !! "To Grade" = Some grade ->
  row_label latest = Timestamp date ->
  get_analyst_recommendations float_repr yf symbol log
  = (Return ("Latest analyst recommendation for " +:+ symbol +:+ ": "
             +:+ py_str float_repr grade +:+ " as of " +:+ date), log).
Proof.
  intros Hstock Hrecs Hgrade Hlabel.
  assert (Hlast : iloc_last (rows ++ [latest]) = Return latest).
  { unfold iloc_last. now rewrite last_snoc. }
  unfold_capability.
  unfold get_analyst_recommendations_try, bind, call, ret.
  rewrite Hstock. cbv beta iota. rewrite Hrecs. cbv beta iota.
  destruct (rows ++ [latest]) as [|r rest] eqn:Hrows; [now destruct rows|].
  cbv beta iota. rewrite Hlast. unfold getitem. rewrite Hgrade, Hlabel. reflexivity.
Qed.


(** *** [get_recent_news] *)

(** X11: the news reported is the first item of the list, whatever follows it; if
    that item lacks its title, or has a title and lacks its link, the call is
    reported as a failure naming the missing key, even when later items are
    complete. *)
Theorem recent_news_is_first_item (symbol : string) (log : Log) (stock : Ticker)
  (first : gmap string pyval) (others : list (gmap string pyval)) :
  yf_Ticker yf symbol = Return stock ->
  news stock = Return (first :: others) ->
  (forall title link,
      first !! "title" = Some title ->
      first !! "link" = Some link ->
      get_recent_news float_repr yf symbol log
      = (Return ("Latest news for " +:+ symbol +:+ ": " +:+ py_str float_repr title
                 +:+ " - " +:+ py_str float_repr link), log))
  /\ (first !! "title" = None ->
      get_recent_news float_repr yf symbol log
      = (Return ("Error fetching recent news for " +:+ symbol +:+ ": 'title'"),
         log ++ ["Error fetching recent news for " +:+ symbol +:+ ": 'title'"]))
  /\ (forall title,
      first !! "title" = Some title ->
      first !! "link" = None ->
      get_recent_news float_repr yf symbol log
      = (Return ("Error fetching recent news for " +:+ symbol +:+ ": 'link'"),
         log ++ ["Error fetching recent news for " +:+ symbol +:+ ": 'link'"])).
Proof.
  intros Hstock Hnews.
  repeat split; intros; unfold_capability; unfold_blocks; rewrite Hstock, Hnews;
    unfold getitem;
    repeat match goal with H : first !! _ = _ |- _ => rewrite H; clear H end;
    reflexivity.
Qed.

(** *** [get_company_info] *)

(** X12: once the info dictionary is fetched, [get_company_info] fails exactly when
    the name is missing, or the summary is present and is not a text: the
    default of the summary only stands in for a missing key, not for a
    [None]. *)
Theorem company_info_fails_iff (symbol : string) (log : Log) (stock : Ticker)
  (d : gmap string pyval) :
  yf_Ticker yf symbol = Return stock ->
  info stock = Return d ->
  (exists e, fst (get_company_info_try float_repr yf symbol log) = Raise e)
  <-> (d !! "longName" = None
       \/ d !! "longBusinessSummary" = Some PyNone
       \/ exists y, d !! "longBusinessSummary" = Some (PyFloat y)).
Proof.
  intros Hstock Hinfo. unfold_blocks. rewrite Hstock, Hinfo. unfold getitem.
  destruct (d !! "longName") as [n|]; simpl; [|split; eauto].
  destruct (d !! "longBusinessSummary") as [[|s|y]|] eqn:Hsum;
    [ rewrite !(dict_get_Some d "longBusinessSummary" _ _ Hsum)
    | rewrite !(dict_get_Some d "longBusinessSummary" _ _ Hsum)
    | rewrite !(dict_get_Some d "longBusinessSummary" _ _ Hsum)
    | rewrite !(dict_get_None d "longBusinessSummary" _ Hsum) ]; simpl.
  - split; eauto.
  - split; [intros [e He]; discriminate|].
    intros [H | [H | [y H]]]; discriminate.
  - split; eauto.
  - split; [intros [e He]; discriminate|].
    intros [H | [H | [y H]]]; discriminate.
Qed.

(** X13: a summary that is present as [None] is reported, and logged, as an error
    although the company's name is known. *)
Theorem company_info_summary_none (symbol : string) (log : Log) (stock : Ticker)
  (d : gmap string pyval) (longName : pyval) :
  yf_Ticker yf symbol = Return stock ->
  info stock = Return d ->
  d !! "longName" = Some longName ->
  d !! "longBusinessSummary" = Some PyNone ->
  get_company_info float_repr yf symbol log
  = (Return ("Error fetching company info for " +:+ symbol
             +:+ ": 'NoneType' object is not subscriptable"),
     log ++ ["Error fetching company info for " +:+ symbol
             +:+ ": 'NoneType' object is not subscriptable"]).
Proof.
  intros Hstock Hinfo Hname Hsum.
  unfold_capability; unfold_blocks. rewrite Hstock, Hinfo.
  unfold getitem. rewrite Hname.
  rewrite !(dict_get_Some d "longBusinessSummary" _ _ Hsum). reflexivity.
Qed.

End CapabilityCases.

(** ** More about the credential check *)

(** X14: where the key comes from.  A non-empty key of the process environment is
    used, whatever the [.env] file says; an empty key of the process
    environment makes the check fail even when the [.env] file has a key;
    without a key in the process environment the key of the [.env] file is
    used; and without a key in either the check fails. *)
Theorem key_resolution (dotenv environ : gmap string string) :
  (forall key,
      environ !! "OPENAI_API_KEY" = Some key ->
      key <> "" ->
      configure dotenv environ
      = (Return tt,
         <["OPENAI_BASE_URL" := api_base]>
           (<["OPENAI_API_KEY" := key]> (load_dotenv dotenv environ))))
  /\ (environ !! "OPENAI_API_KEY" = Some "" ->
      configure dotenv environ
      = (Raise (Exn ValueError "OPENAI_API_KEY not found in .env file"),
         load_dotenv dotenv environ))
  /\ (forall key,
      environ !! "OPENAI_API_KEY" = None ->
      dotenv !! "OPENAI_API_KEY" = Some key ->
      key <> "" ->
      configure dotenv environ
      = (Return tt,
         <["OPENAI_BASE_URL" := api_base]>
           (<["OPENAI_API_KEY" := key]> (load_dotenv dotenv environ))))
  /\ (environ !! "OPENAI_API_KEY" = None ->
      dotenv !! "OPENAI_API_KEY" = None ->
      configure dotenv environ
      = (Raise (Exn ValueError "OPENAI_API_KEY not found in .env file"),
         load_dotenv dotenv environ)).
Proof.
  repeat split.
  - intros key Henv Hne. apply configure_present; [|exact Hne].
    now rewrite load_dotenv_lookup, Henv.
  - intros Henv. apply configure_missing. right.
    now rewrite load_dotenv_lookup, Henv.
  - intros key Henv Hdot Hne. apply configure_present; [|exact Hne].
    now rewrite load_dotenv_lookup, Henv.
  - intros Henv Hdot. apply configure_missing. left.
    now rewrite load_dotenv_lookup, Henv.
Qed.

Lemma configure_returns_inv (dotenv environ env' : gmap string string) :
  configure dotenv environ = (Return tt, env') ->
  exists key,
    load_dotenv dotenv environ !! "OPENAI_API_KEY" = Some key
    /\ key <> ""
    /\ env' = <["OPENAI_BASE_URL" := api_base]>
               (<["OPENAI_API_KEY" := key]> (load_dotenv dotenv environ)).
Proof.
  unfold configure.
  destruct (load_dotenv dotenv environ !! "OPENAI_API_KEY") as [key|]; [|discriminate].
  destruct (String.eqb_spec key "") as [-> | Hne]; [discriminate|].
  intros [= <-]. now exists key.
Qed.

(** X15: what a passed check leaves in the environment: the base URL of the
    script, replacing any other; and every other variable as [load_dotenv]
    left it, the process's own value if it had one, the value of the [.env]
    file otherwise. *)
Theorem configure_changes_only_the_base_url (dotenv environ env' : gmap string string) :
  configure dotenv environ = (Return tt, env') ->
  env' !! "OPENAI_BASE_URL" = Some api_base
  /\ forall k,
      k <> "OPENAI_BASE_URL" ->
      env' !! k = match environ !! k with
                  | Some v => Some v
                  | None => dotenv !! k
                  end.
Proof.
  intros H. apply configure_returns_inv in H as (key & Hkey & _ & ->).
  split; [apply lookup_insert_eq|].
  intros k Hk. rewrite lookup_insert_ne by congruence.
  destruct (decide (k = "OPENAI_API_KEY")) as [-> | Hk'].
  - rewrite lookup_insert_eq, <- load_dotenv_lookup. now rewrite Hkey.
  - rewrite lookup_insert_ne by congruence. apply load_dotenv_lookup.
Qed.

(** X16: the check can be run again: after it has passed, it passes again with the
    same [.env] file and leaves the environment as it is. *)
Theorem configure_is_idempotent (dotenv environ env' : gmap string string) :
  configure dotenv environ = (Return tt, env') ->
  configure dotenv env' = (Return tt, env').
Proof.
  intros H. apply configure_returns_inv in H as (key & Hkey & Hne & ->).
  set (env := load_dotenv dotenv environ) in *.
  assert (Hload : load_dotenv dotenv
                    (<["OPENAI_BASE_URL" := api_base]> (<["OPENAI_API_KEY" := key]> env))
                  = <["OPENAI_BASE_URL" := api_base]> (<["OPENAI_API_KEY" := key]> env)).
  { apply map_eq. intros k. rewrite load_dotenv_lookup.
    destruct (decide (k = "OPENAI_BASE_URL")) as [-> | Hb];
      [now rewrite lookup_insert_eq|].
    rewrite lookup_insert_ne by congruence.
    destruct (decide (k = "OPENAI_API_KEY")) as [-> | Hk];
      [now rewrite lookup_insert_eq|].
    rewrite lookup_insert_ne by congruence.
    subst env. rewrite load_dotenv_lookup.
    destruct (environ !! k); [reflexivity|]. now destruct (dotenv !! k). }
  rewrite (configure_present dotenv _ key); [| |exact Hne].
  - rewrite Hload. f_equal.
    rewrite (insert_id _ "OPENAI_API_KEY" key).
    + apply insert_id, lookup_insert_eq.
    + rewrite lookup_insert_ne by discriminate. apply lookup_insert_eq.
  - rewrite Hload. rewrite lookup_insert_ne by discriminate. apply lookup_insert_eq.
Qed.

(** ** More about the scripts *)

Ltac unfold_indexing :=
  unfold load_and_index_data, try_except, bind, StorageContext_from_defaults,
    load_index_from_storage, load_data, call, persist, raise, ret.

Section ScriptCases.

Variable Document : Type.
Variable Index : Type.
Variable from_documents : list Document -> outcome Index.
Variable Coordinator : Type.
Variable coordinate :
  list ToolMetadata -> string -> Coordinator -> outcome string * Coordinator.

Abbreviation world' := (World Document Index Coordinator).

(** *** [load_and_index_data] *)

Lemma restorable_cases (st : gmap string (list Index)) :
  (exists l u, restorable st "./storage/lyft" = Some l
               /\ restorable st "./storage/uber" = Some u)
  \/ restorable st "./storage/lyft" = None
  \/ restorable st "./storage/uber" = None.
Proof.
  destruct (restorable st "./storage/lyft") as [l|]; [|auto].
  destruct (restorable st "./storage/uber") as [u|]; [|auto].
  left. now exists l, u.
Qed.

(** When a restoration fails, the call is what its handler makes of the two
    files and the index builder. *)
Lemma rebuild_cases (w : world') :
  restorable (storage w) "./storage/lyft" = None
  \/ restorable (storage w) "./storage/uber" = None ->
  (exists e,
      load_and_index_data from_documents w = (Raise e, w)
      /\ (files w !! "./data/10k/lyft_2021.pdf" = None
          \/ files w !! "./data/10k/uber_2021.pdf" = None
          \/ (exists docs, files w !! "./data/10k/lyft_2021.pdf" = Some docs
                           /\ from_documents docs = Raise e)
          \/ (exists docs, files w !! "./data/10k/uber_2021.pdf" = Some docs
                           /\ from_documents docs = Raise e)))
  \/ (exists lyft_docs uber_docs l u,
        files w !! "./data/10k/lyft_2021.pdf" = Some lyft_docs
        /\ files w !! "./data/10k/uber_2021.pdf" = Some uber_docs
        /\ from_documents lyft_docs = Return l
        /\ from_documents uber_docs = Return u
        /\ load_and_index_data from_documents w
           = (Return (l, u),
              set_storage
                (<["./storage/uber" := [u] ]> (<["./storage/lyft" := [l] ]> (storage w)))
                w)).
Proof.
  intros Hmissing.
  destruct (files w !! "./data/10k/lyft_2021.pdf") as [lyft_docs|] eqn:Hlf.
  2: { left. eexists. split; [|now left].
       unfold restorable in Hmissing.
       unfold_indexing.
       destruct (storage w !! "./storage/lyft") as [[|l' [|]]|]; simpl;
         rewrite ?Hlf; try reflexivity.
       destruct (storage w !! "./storage/uber") as [[|u' [|]]|]; simpl;
         rewrite ?Hlf; try reflexivity.
       destruct Hmissing; discriminate. }
  destruct (files w !! "./data/10k/uber_2021.pdf") as [uber_docs|] eqn:Huf.
  2: { left. eexists. split; [|right; now left].
       unfold restorable in Hmissing.
       unfold_indexing.
       destruct (storage w !! "./storage/lyft") as [[|l' [|]]|]; simpl;
         rewrite ?Hlf, ?Huf; try reflexivity.
       destruct (storage w !! "./storage/uber") as [[|u' [|]]|]; simpl;
         rewrite ?Hlf, ?Huf; try reflexivity.
       destruct Hmissing; discriminate. }
  destruct (from_documents lyft_docs) as [l|e] eqn:Hl.
  2: { left. exists e. split; [|right; right; left; now exists lyft_docs].
       unfold restorable in Hmissing.
       unfold_indexing.
       destruct (storage w !! "./storage/lyft") as [[|l' [|]]|]; simpl;
         rewrite ?Hlf, ?Huf, ?Hl; try reflexivity.
       destruct (storage w !! "./storage/uber") as [[|u' [|]]|]; simpl;
         rewrite ?Hlf, ?Huf, ?Hl; try reflexivity.
       destruct Hmissing; discriminate. }
  destruct (from_documents uber_docs) as [u|e] eqn:Hu.
  2: { left. exists e. split; [|right; right; right; now exists uber_docs].
       unfold restorable in Hmissing.
       unfold_indexing.
       destruct (storage w !! "./storage/lyft") as [[|l' [|]]|]; simpl;
         rewrite ?Hlf, ?Huf, ?Hl, ?Hu; try reflexivity.
       destruct (storage w !! "./storage/uber") as [[|u' [|]]|]; simpl;
         rewrite ?Hlf, ?Huf, ?Hl, ?Hu; try reflexivity.
       destruct Hmissing; discriminate. }
  right. exists lyft_docs, uber_docs, l, u. repeat split; try assumption.
  now apply (rebuild_both Document Index from_documents Coordinator lyft_docs uber_docs).
Qed.

(** X17: a call that fails leaves the world as it found it: nothing is persisted,
    not even a Lyft index that was built before the Uber index failed. *)
Theorem failed_indexing_changes_nothing (w : world') (e : exn) :
  fst (load_and_index_data from_documents w) = Raise e ->
  load_and_index_data from_documents w = (Raise e, w).
Proof.
  intros H.
  destruct (restorable_cases (storage w)) as [(l & u & Hl & Hu) | Hmissing].
  - rewrite (restore_both Document Index from_documents Coordinator l u w Hl Hu) in H.
    discriminate.
  - destruct (rebuild_cases w Hmissing) as [(e' & Hrun & _) | (ld & ud & l & u & Hrun)].
    + rewrite Hrun in H. injection H as <-. exact Hrun.
    + destruct Hrun as (_ & _ & _ & _ & Hrun). rewrite Hrun in H. discriminate.
Qed.

(** X18: after a call that returns, each of the two directories holds exactly the
    index that was returned for it, so a second call restores the same pair
    and changes nothing. *)
Theorem indexing_can_be_repeated (w w' : world') (l u : Index) :
  load_and_index_data from_documents w = (Return (l, u), w') ->
  restorable (storage w') "./storage/lyft" = Some l
  /\ restorable (storage w') "./storage/uber" = Some u
  /\ load_and_index_data from_documents w' = (Return (l, u), w').
Proof.
  intros H.
  assert (Hboth : restorable (storage w') "./storage/lyft" = Some l
                  /\ restorable (storage w') "./storage/uber" = Some u).
  { destruct (restorable_cases (storage w)) as [(l0 & u0 & Hl & Hu) | Hmissing].
    - rewrite (restore_both Document Index from_documents Coordinator l0 u0 w Hl Hu) in H.
      injection H as <- <- <-. now split.
    - destruct (rebuild_cases w Hmissing) as [(e' & Hrun & _) | (ld & ud & l0 & u0 & Hrun)].
      + rewrite Hrun in H. discriminate.
      + destruct Hrun as (_ & _ & _ & _ & Hrun). rewrite Hrun in H.
        injection H as <- <- <-. simpl. apply restorable_persisted. }
  destruct Hboth as [Hl Hu]. repeat split; try assumption.
  now apply restore_both.
Qed.

(** X19: whatever its outcome, a call touches nothing but the two storage
    directories: the environment, the files, the coordinator, the trace and
    every other directory are as before. *)
Theorem indexing_touches_two_directories (w : world') :
  environ (snd (load_and_index_data from_documents w)) = environ w
  /\ files (snd (load_and_index_data from_documents w)) = files w
  /\ coordinator (snd (load_and_index_data from_documents w)) = coordinator w
  /\ trace (snd (load_and_index_data from_documents w)) = trace w
  /\ forall dir,
      dir <> "./storage/lyft" ->
      dir <> "./storage/uber" ->
      storage (snd (load_and_index_data from_documents w)) !! dir = storage w !! dir.
Proof.
  destruct (restorable_cases (storage w)) as [(l & u & Hl & Hu) | Hmissing].
  - rewrite (restore_both Document Index from_documents Coordinator l u w Hl Hu).
    now repeat split.
  - destruct (rebuild_cases w Hmissing) as [(e & -> & _) | (ld & ud & l & u & Hrun)].
    + now repeat split.
    + destruct Hrun as (_ & _ & _ & _ & ->). simpl. repeat split.
      intros dir Hlyft Huber. now rewrite !lookup_insert_ne by congruence.
Qed.

(** X20: the call returns exactly when both indexes can be restored, or both PDF
    files can be read and both indexes built; in every other case it raises. *)
Theorem indexing_returns_iff (w : world') :
  (exists l u w', load_and_index_data from_documents w = (Return (l, u), w'))
  <-> ((exists l u, restorable (storage w) "./storage/lyft" = Some l
                    /\ restorable (storage w) "./storage/uber" = Some u)
       \/ (exists lyft_docs uber_docs l u,
              files w !! "./data/10k/lyft_2021.pdf" = Some lyft_docs
              /\ files w !! "./data/10k/uber_2021.pdf" = Some uber_docs
              /\ from_documents lyft_docs = Return l
              /\ from_documents uber_docs = Return u)).
Proof.
  split.
  - intros (l & u & w' & H).
    destruct (restorable_cases (storage w)) as [Hboth | Hmissing]; [now left|].
    destruct (rebuild_cases w Hmissing) as [(e & Hrun & _) | (ld & ud & l0 & u0 & Hrun)].
    + rewrite Hrun in H. discriminate.
    + right. exists ld, ud, l0, u0. tauto.
  - intros [(l & u & Hl & Hu) | (ld & ud & l & u & Hlf & Huf & Hl & Hu)].
    + exists l, u, w. now apply restore_both.
    + destruct (restorable_cases (storage w)) as [(l0 & u0 & Hl0 & Hu0) | Hmissing].
      * exists l0, u0, w. now apply restore_both.
      * eexists l, u, _. now apply (rebuild_both Document Index from_documents Coordinator ld ud).
Qed.

(** *** [setup_agents_and_services] *)

Lemma comprehension_lookup (all : list ToolMetadata) (tools : list (QueryEngineTool Index))
  (w : world') :
  NoDup (map name all) ->
  (forall t, In t tools -> In (tool_metadata t) all) ->
  comprehension (S := world')
    (fun t => call (get_tool_by_name all (name (tool_metadata t)))) tools w
  = (Return (map tool_metadata tools), w).
Proof.
  intros Hnodup. induction tools as [|t tools IH]; intros Hin; [reflexivity|].
  simpl. unfold bind at 1, call at 1.
  rewrite (proj2 (unique_name_lookup all (tool_metadata t) Hnodup (Hin t (or_introl eq_refl)))).
  unfold bind at 1. rewrite IH by (intros t' Ht'; apply Hin; now right).
  reflexivity.
Qed.

(** X21: given tools with pairwise different names, the agent is given the
    descriptor of every tool, in the order of the tools, and the world is
    left as it is. *)
Theorem agent_gets_every_descriptor (tools : list (QueryEngineTool Index)) (w : world') :
  NoDup (map name (map tool_metadata tools)) ->
  setup_agents_and_services tools w
  = (Return {| meta_tools := map tool_metadata tools;
               agent_description :=
                 "Used to answer questions over Uber and Lyft 10K documents";
               service_name := "uber_lyft_10k_analyst_agent" |}, w).
Proof.
  intros Hnodup. unfold setup_agents_and_services, bind.
  rewrite comprehension_lookup; [reflexivity | exact Hnodup |].
  intros t Ht. now apply in_map.
Qed.

(** *** The query loop *)

(** The two ways the loop can end, whatever the coordinator does. *)
Lemma run_queries_cases (l : LocalLauncher) (requests : list string) (w : world') :
  (exists answers c',
      answered coordinate (meta_tools l) (coordinator w) requests answers c'
      /\ run_queries coordinate l requests w
         = (Return tt, with_run c' (concat (zip_with exchange requests answers)) w))
  \/ (exists handled answers q rest e c1 c2,
        requests = handled ++ q :: rest
        /\ answered coordinate (meta_tools l) (coordinator w) handled answers c1
        /\ coordinate (meta_tools l) q c1 = (Raise e, c2)
        /\ run_queries coordinate l requests w
           = (Raise e,
              with_run c2
                (concat (zip_with exchange handled answers)
                 ++ [Printed ("Query: " +:+ q); Submitted q]) w)).
Proof.
  revert w. induction requests as [|q requests IH]; intros w.
  - left. exists [], (coordinator w). split; [constructor|].
    apply run_queries_answered. constructor.
  - destruct (coordinate (meta_tools l) q (coordinator w)) as [[a | e] c1] eqn:Hq.
    + destruct (IH (with_run c1 (exchange q a) w))
        as [(answers & c' & Hans & _) | (handled & answers & q' & rest & e & c2 & c3
                                           & -> & Hans & Hraise & _)].
      * left. exists (a :: answers), c'.
        assert (H : answered coordinate (meta_tools l) (coordinator w) (q :: requests)
                      (a :: answers) c') by (econstructor; eauto).
        split; [exact H | now apply run_queries_answered].
      * right. exists (q :: handled), (a :: answers), q', rest, e, c2, c3.
        assert (H : answered coordinate (meta_tools l) (coordinator w) (q :: handled)
                      (a :: answers) c2) by (econstructor; eauto).
        repeat split; try assumption.
        now apply (run_queries_raises Document Index Coordinator coordinate l
                     (q :: handled) (a :: answers) q' rest e c2 c3 w).
    + right. exists [], [], q, requests, e, (coordinator w), c1.
      repeat split; try assumption; [constructor|].
      apply (run_queries_raises Document Index Coordinator coordinate l [] [] q requests e
               (coordinator w) c1 w); [constructor | exact Hq].
Qed.

Lemma take_through_middle {A : Type} (before : list A) (x : A) (after : list A) :
  take (S (length before)) (before ++ x :: after) = before ++ [x].
Proof.
  induction before as [|y before IH]; simpl; [now rewrite take_0|].
  f_equal. exact IH.
Qed.

Lemma submitted_exchanges (requests answers : list string) :
  length requests = length answers ->
  submitted (concat (zip_with exchange requests answers)) = requests.
Proof.
  revert answers. induction requests as [|q requests IH]; intros [|a answers] Hlen;
    simpl in *; try discriminate; [reflexivity|].
  unfold submitted in *. simpl. f_equal. apply IH. congruence.
Qed.

(** X22: whatever the coordinator does, the requests it is handed are the first
    requests of the list, each once and in the order of the list: the loop
    never skips a request, repeats one or reorders them.  When the loop
    returns they are all of the list; when it raises, the last one handed
    over is the one that failed, and the loop only appended to the trace. *)
Theorem submitted_requests_are_a_prefix
  (l : LocalLauncher) (requests : list string) (w : world') :
  exists evs k,
    trace (snd (run_queries coordinate l requests w)) = trace w ++ evs
    /\ submitted evs = take k requests
    /\ (fst (run_queries coordinate l requests w) = Return tt -> submitted evs = requests)
    /\ (forall e, fst (run_queries coordinate l requests w) = Raise e ->
                  exists q, requests !! (k - 1)%nat = Some q
                            /\ last evs = Some (Submitted q)).
Proof.
  destruct (run_queries_cases l requests w)
    as [(answers & c' & Hans & ->)
       | (handled & answers & q & rest & e & c1 & c2 & -> & Hans & Hraise & ->)].
  - pose proof (answered_length Coordinator coordinate _ _ _ _ _ Hans) as Hlen.
    exists (concat (zip_with exchange requests answers)), (length requests).
    simpl. rewrite (submitted_exchanges _ _ Hlen), firstn_all.
    split; [reflexivity|]. split; [reflexivity|]. split; [reflexivity|].
    intros e He. discriminate.
  - pose proof (answered_length Coordinator coordinate _ _ _ _ _ Hans) as Hlen.
    exists (concat (zip_with exchange handled answers)
            ++ [Printed ("Query: " +:+ q); Submitted q]), (S (length handled)).
    simpl. split; [reflexivity|]. split; [|split; [discriminate|]].
    + unfold submitted. rewrite omap_app. fold (submitted (concat (zip_with exchange handled answers))).
      rewrite (submitted_exchanges _ _ Hlen). simpl.
      now rewrite take_through_middle.
    + intros e' _. exists q. split.
      * rewrite Nat.sub_0_r. now rewrite list_lookup_middle.
      * change [Printed ("Query: " +:+ q); Submitted q]
          with ([Printed ("Query: " +:+ q)] ++ [Submitted q]).
        rewrite (app_assoc (concat (zip_with exchange handled answers))).
        now rewrite last_snoc.
Qed.

(** *** [main] of RAG.py and main.py as wholes *)

(** X23: when indexing fails, [main] ends with that exception before its first
    query: nothing is printed, nothing is submitted, nothing is persisted. *)
Theorem main_stops_when_indexing_fails (w : world') (e : exn) :
  fst (load_and_index_data from_documents w) = Raise e ->
  main from_documents coordinate w = (Raise e, w).
Proof.
  intros H.
  assert (Hrun : load_and_index_data from_documents w = (Raise e, w)).
  { destruct (restorable_cases (storage w)) as [(l & u & Hl & Hu) | Hmissing].
    - rewrite (restore_both Document Index from_documents Coordinator l u w Hl Hu) in H.
      discriminate.
    - destruct (rebuild_cases w Hmissing) as [(e' & Hrun & _) | (ld & ud & l & u & Hrun)].
      + rewrite Hrun in H. injection H as <-. exact Hrun.
      + destruct Hrun as (_ & _ & _ & _ & Hrun). rewrite Hrun in H. discriminate. }
  unfold main. now apply bind_raise.
Qed.

(** X24: a first run of [main]: with nothing to restore, it builds the two indexes
    from the two files, persists them, and then handles the two queries in
    order; the world it leaves differs from the one it found by the two
    directories, the coordinator's state and the six trace entries. *)
Theorem main_first_run (lyft_docs uber_docs : list Document) (l u : Index)
  (answers : list string) (c' : Coordinator) (w : world') :
  restorable (storage w) "./storage/lyft" = None
  \/ restorable (storage w) "./storage/uber" = None ->
  files w !! "./data/10k/lyft_2021.pdf" = Some lyft_docs ->
  files w !! "./data/10k/uber_2021.pdf" = Some uber_docs ->
  from_documents lyft_docs = Return l ->
  from_documents uber_docs = Return u ->
  answered coordinate (meta_tools RAG_launcher) (coordinator w) queries answers c' ->
  main from_documents coordinate w
  = (Return tt,
     with_run c' (concat (zip_with exchange queries answers))
       (set_storage
          (<["./storage/uber" := [u] ]> (<["./storage/lyft" := [l] ]> (storage w))) w)).
Proof.
  intros Hmissing Hlf Huf Hl Hu Hanswered.
  rewrite (main_after_indexing Document Index from_documents Coordinator coordinate l u w _
             (rebuild_both Document Index from_documents Coordinator lyft_docs uber_docs
                l u w Hmissing Hlf Huf Hl Hu)).
  now apply run_queries_answered.
Qed.

(** X25: main.py with a key and a coordinator that answers: the request is
    submitted once and its answer printed once, as "Result: {answer}". *)
Theorem main_script_prints_the_answer
  (float_repr : float -> string) (yf : yfinance) (dotenv : gmap string string)
  (key answer : string) (c' : Coordinator) (w : world') :
  load_dotenv dotenv (environ w) !! "OPENAI_API_KEY" = Some key ->
  key <> "" ->
  coordinate (main_meta_tools float_repr yf) request (coordinator w) = (Return answer, c') ->
  main_script float_repr yf coordinate dotenv w
  = (Return tt,
     with_run c' [Submitted request; Printed ("Result: " +:+ answer)]
       (set_environ
          (<["OPENAI_BASE_URL" := api_base]>
             (<["OPENAI_API_KEY" := key]> (load_dotenv dotenv (environ w)))) w)).
Proof.
  intros Hkey Hne Hanswer.
  assert (Hconf : load_configuration dotenv w
                  = (Return tt,
                     set_environ
                       (<["OPENAI_BASE_URL" := api_base]>
                          (<["OPENAI_API_KEY" := key]> (load_dotenv dotenv (environ w))))
                       w)).
  { unfold load_configuration. now rewrite (configure_present _ _ key Hkey Hne). }
  unfold main_script. rewrite (bind_return _ _ _ _ _ Hconf).
  unfold bind, launch_single, print. simpl. rewrite Hanswer. simpl.
  unfold with_run, emit, set_coordinator, set_environ. simpl.
  now rewrite <- app_assoc.
Qed.

End ScriptCases.

(** ** The further statements at concrete inputs *)

Lemma error_records_have_one_format_witness :
  fst (try_block no_repr yf_down GetAnalystRecommendations "AAPL" []) = Raise connection_error
  /\ snd (run_capability no_repr yf_down GetAnalystRecommendations "AAPL" [])
     = ["Error fetching analyst recommendations for AAPL: connection refused"]
  /\ fst (run_capability no_repr yf_down GetAnalystRecommendations "AAPL" [])
     = Return "Unable to fetch analyst recommendations for AAPL due to an error: connection refused".
Proof.
  split; [reflexivity|].
  exact (error_records_have_one_format no_repr yf_down GetAnalystRecommendations "AAPL"
           connection_error [] eq_refl).
Defined.

Lemma financial_ratios_text_witness :
  get_financial_ratios no_repr (yf_with info_yield None []) "AAPL" []
  = (Return "AAPL financial ratios: P/E: N/A, P/B: N/A, Dividend Yield: 0.44%", [])
  /\ get_financial_ratios no_repr yf_quiet "AAPL" []
     = (Return "AAPL financial ratios: P/E: N/A, P/B: N/A, Dividend Yield: N/A", []).
Proof.
  split.
  - exact (proj1 (financial_ratios_text no_repr (yf_with info_yield None []) "AAPL" [])
             _ info_yield float_0_0044 eq_refl eq_refl eq_refl).
  - exact (proj2 (financial_ratios_text no_repr yf_quiet "AAPL" [])
             _ ∅ eq_refl eq_refl eq_refl eq_refl eq_refl).
Defined.

Lemma financial_ratios_fail_iff_witness :
  info_yield_none !! "dividendYield" = Some PyNone
  /\ exists e,
      fst (get_financial_ratios_try no_repr (yf_with info_yield_none None []) "AAPL" [])
      = Raise e.
Proof.
  split; [reflexivity|].
  exact (proj2 (financial_ratios_fail_iff no_repr (yf_with info_yield_none None []) "AAPL" []
                  _ info_yield_none eq_refl eq_refl)
           (or_introl eq_refl)).
Defined.

Lemma industry_comparison_verdict_witness :
  get_industry_comparison no_repr (yf_with (info_ratios (PyFloat float_28_5)) None [])
    "AAPL" []
  = (Return ("AAPL is in the Technology sector, specifically in the Consumer Electronics "
             +:+ "industry. Its P/E ratio (28.50) is lower than the industry average "
             +:+ "(31.25), which could indicate it's undervalued compared to its peers."),
     []).
Proof.
  exact (industry_comparison_verdict no_repr
           (yf_with (info_ratios (PyFloat float_28_5)) None []) "AAPL" [] _
           (info_ratios (PyFloat float_28_5)) float_28_5 float_31_25
           eq_refl eq_refl eq_refl eq_refl).
Defined.

Lemma industry_comparison_in_line_witness :
  get_industry_comparison no_repr (yf_with (info_ratios (PyFloat S754_nan)) None [])
    "AAPL" []
  = (Return ("AAPL is in the Technology sector, specifically in the Consumer Electronics "
             +:+ "industry. Its P/E ratio (nan) is in line with the industry average "
             +:+ "(31.25)."),
     []).
Proof.
  exact (industry_comparison_in_line no_repr
           (yf_with (info_ratios (PyFloat S754_nan)) None []) "AAPL" [] _
           (info_ratios (PyFloat S754_nan)) S754_nan float_31_25
           eq_refl eq_refl eq_refl eq_refl (or_intror (or_introl eq_refl))).
Defined.

Lemma industry_comparison_lack_of_data_witness :
  get_industry_comparison no_repr (yf_with info_pe_only None []) "AAPL" []
  = (Return ("AAPL is in the Unknown sector, specifically in the Unknown industry. "
             +:+ "Unable to compare P/E ratio with industry average due to lack of data."),
     []).
Proof.
  exact (industry_comparison_lack_of_data no_repr (yf_with info_pe_only None []) "AAPL" []
           _ info_pe_only eq_refl eq_refl (or_intror eq_refl)).
Defined.

Lemma industry_comparison_fails_iff_witness :
  exists e,
    fst (get_industry_comparison_try no_repr (yf_with (info_ratios PyNone) None [])
           "AAPL" []) = Raise e.
Proof.
  refine (proj2 (industry_comparison_fails_iff no_repr
                   (yf_with (info_ratios PyNone) None []) "AAPL" [] _
                   (info_ratios PyNone) eq_refl eq_refl) _).
  split; [reflexivity|]. split; [reflexivity|].
  intros (pe & avg & Hpe & _). discriminate.
Defined.

Lemma analyst_recommendation_is_last_row_witness :
  get_analyst_recommendations no_repr
    (yf_with ∅ (Some [upgrade_row "Hold" "2023-01-05"; upgrade_row "Buy" "2024-03-01"]) [])
    "AAPL" []
  = (Return "Latest analyst recommendation for AAPL: Buy as of 2024-03-01", []).
Proof.
  exact (analyst_recommendation_is_last_row no_repr
           (yf_with ∅ (Some [upgrade_row "Hold" "2023-01-05"; upgrade_row "Buy" "2024-03-01"])
              [])
           "AAPL" [] _ [upgrade_row "Hold" "2023-01-05"] (upgrade_row "Buy" "2024-03-01")
           (PyStr "Buy") "2024-03-01" eq_refl eq_refl eq_refl eq_refl).
Defined.


Lemma recent_news_is_first_item_witness :
  get_recent_news no_repr
    (yf_with ∅ None [news_item "Apple reports earnings" "https://example.org/a"; ∅])
    "AAPL" []
  = (Return "Latest news for AAPL: Apple reports earnings - https://example.org/a", [])
  /\ get_recent_news no_repr
       (yf_with ∅ None [∅; news_item "Apple reports earnings" "https://example.org/a"])
       "AAPL" []
     = (Return "Error fetching recent news for AAPL: 'title'",
        ["Error fetching recent news for AAPL: 'title'"]).
Proof.
  split.
  - exact (proj1 (recent_news_is_first_item no_repr
                    (yf_with ∅ None
                       [news_item "Apple reports earnings" "https://example.org/a"; ∅])
                    "AAPL" [] _ _ _ eq_refl eq_refl)
             (PyStr "Apple reports earnings") (PyStr "https://example.org/a")
             eq_refl eq_refl).
  - exact (proj1 (proj2 (recent_news_is_first_item no_repr
                           (yf_with ∅ None
                              [∅; news_item "Apple reports earnings" "https://example.org/a"])
                           "AAPL" [] _ _ _ eq_refl eq_refl))
             eq_refl).
Defined.

Lemma company_info_fails_iff_witness :
  exists e,
    fst (get_company_info_try no_repr (yf_with info_summary_none None []) "AAPL" [])
    = Raise e.
Proof.
  exact (proj2 (company_info_fails_iff no_repr (yf_with info_summary_none None []) "AAPL" []
                  _ info_summary_none eq_refl eq_refl)
           (or_intror (or_introl eq_refl))).
Defined.

Lemma company_info_summary_none_witness :
  get_company_info no_repr (yf_with info_summary_none None []) "AAPL" []
  = (Return "Error fetching company info for AAPL: 'NoneType' object is not subscriptable",
     ["Error fetching company info for AAPL: 'NoneType' object is not subscriptable"]).
Proof.
  exact (company_info_summary_none no_repr (yf_with info_summary_none None []) "AAPL" []
           _ info_summary_none (PyStr "Apple Inc.") eq_refl eq_refl eq_refl eq_refl).
Defined.


Lemma key_resolution_witness :
  configure dotenv_file environ_empty_key
  = (Raise (Exn ValueError "OPENAI_API_KEY not found in .env file"),
     load_dotenv dotenv_file environ_empty_key)
  /\ configure dotenv_file environ_other_base
     = (Return tt,
        <["OPENAI_BASE_URL" := api_base]>
          (<["OPENAI_API_KEY" := "sk-process"]> (load_dotenv dotenv_file environ_other_base)))
  /\ configure dotenv_file ∅
     = (Return tt,
        <["OPENAI_BASE_URL" := api_base]>
          (<["OPENAI_API_KEY" := "sk-file"]> (load_dotenv dotenv_file ∅))).
Proof.
  assert (Hne1 : "sk-process" <> "") by discriminate.
  assert (Hne2 : "sk-file" <> "") by discriminate.
  split; [|split].
  - exact (proj1 (proj2 (key_resolution dotenv_file environ_empty_key)) eq_refl).
  - exact (proj1 (key_resolution dotenv_file environ_other_base) "sk-process" eq_refl Hne1).
  - exact (proj1 (proj2 (proj2 (key_resolution dotenv_file ∅))) "sk-file" eq_refl eq_refl Hne2).
Defined.

Lemma configure_changes_only_the_base_url_witness :
  environ_other_base !! "OPENAI_BASE_URL" = Some "https://example.org/v1"
  /\ (<["OPENAI_BASE_URL" := api_base]>
        (<["OPENAI_API_KEY" := "sk-process"]> (load_dotenv dotenv_file environ_other_base)))
     !! "OPENAI_BASE_URL" = Some api_base.
Proof.
  assert (Hrun : configure dotenv_file environ_other_base
                 = (Return tt,
                    <["OPENAI_BASE_URL" := api_base]>
                      (<["OPENAI_API_KEY" := "sk-process"]>
                         (load_dotenv dotenv_file environ_other_base)))) by reflexivity.
  split; [reflexivity|].
  exact (proj1 (configure_changes_only_the_base_url dotenv_file environ_other_base _ Hrun)).
Defined.

Lemma configure_is_idempotent_witness :
  configure dotenv_file
    (<["OPENAI_BASE_URL" := api_base]>
       (<["OPENAI_API_KEY" := "sk-file"]> (load_dotenv dotenv_file ∅)))
  = (Return tt,
     <["OPENAI_BASE_URL" := api_base]>
       (<["OPENAI_API_KEY" := "sk-file"]> (load_dotenv dotenv_file ∅))).
Proof.
  assert (Hrun : configure dotenv_file ∅
                 = (Return tt,
                    <["OPENAI_BASE_URL" := api_base]>
                      (<["OPENAI_API_KEY" := "sk-file"]> (load_dotenv dotenv_file ∅))))
    by reflexivity.
  exact (configure_is_idempotent dotenv_file ∅ _ Hrun).
Defined.

Lemma failed_indexing_changes_nothing_witness :
  load_and_index_data failing_index (first_run tt) = (Raise connection_error, first_run tt)
  /\ load_and_index_data index_documents (no_documents tt)
     = (Raise (Exn ValueError "File ./data/10k/lyft_2021.pdf does not exist."),
        no_documents tt).
Proof.
  split.
  - exact (failed_indexing_changes_nothing string (list string) failing_index unit
             (first_run tt) connection_error eq_refl).
  - exact (failed_indexing_changes_nothing string (list string) index_documents unit
             (no_documents tt)
             (Exn ValueError "File ./data/10k/lyft_2021.pdf does not exist.") eq_refl).
Defined.

Lemma indexing_can_be_repeated_witness :
  load_and_index_data index_documents (half_restored tt)
  = (Return (["Lyft 10-K for 2021"], ["Uber 10-K for 2021"]),
     set_storage
       (<["./storage/uber" := [ ["Uber 10-K for 2021"] ] ]>
          (<["./storage/lyft" := [ ["Lyft 10-K for 2021"] ] ]> (storage (half_restored tt))))
       (half_restored tt))
  /\ restorable
       (<["./storage/uber" := [ ["Uber 10-K for 2021"] ] ]>
          (<["./storage/lyft" := [ ["Lyft 10-K for 2021"] ] ]> (storage (half_restored tt))))
       "./storage/lyft" = Some ["Lyft 10-K for 2021"].
Proof.
  assert (Hrun : load_and_index_data index_documents (half_restored tt)
                 = (Return (["Lyft 10-K for 2021"], ["Uber 10-K for 2021"]),
                    set_storage
                      (<["./storage/uber" := [ ["Uber 10-K for 2021"] ] ]>
                         (<["./storage/lyft" := [ ["Lyft 10-K for 2021"] ] ]>
                            (storage (half_restored tt))))
                      (half_restored tt))) by reflexivity.
  split; [exact Hrun|].
  exact (proj1 (indexing_can_be_repeated string (list string) index_documents unit
                  _ _ _ _ Hrun)).
Defined.

Lemma agent_gets_every_descriptor_witness :
  setup_agents_and_services
    (setup_query_engines_and_tools ["Lyft 10-K for 2021"] ["Uber 10-K for 2021"])
    (first_run tt)
  = (Return RAG_launcher, first_run tt).
Proof.
  assert (Hnodup : NoDup (map name (map tool_metadata
                     (setup_query_engines_and_tools
                        ["Lyft 10-K for 2021"] ["Uber 10-K for 2021"]))))
    by (apply NoDup_names; reflexivity).
  exact (agent_gets_every_descriptor string (list string) unit
           (setup_query_engines_and_tools ["Lyft 10-K for 2021"] ["Uber 10-K for 2021"])
           (first_run tt) Hnodup).
Defined.

Lemma main_stops_when_indexing_fails_witness :
  main index_documents answering_coordinator (no_documents tt)
  = (Raise (Exn ValueError "File ./data/10k/lyft_2021.pdf does not exist."),
     no_documents tt).
Proof.
  exact (main_stops_when_indexing_fails string (list string) index_documents unit
           answering_coordinator (no_documents tt)
           (Exn ValueError "File ./data/10k/lyft_2021.pdf does not exist.") eq_refl).
Defined.

Lemma main_first_run_witness :
  main index_documents answering_coordinator (first_run tt)
  = (Return tt,
     {| environ := configured_environ; files := pdfs;
        storage := <["./storage/uber" := [ ["Uber 10-K for 2021"] ] ]>
                     (<["./storage/lyft" := [ ["Lyft 10-K for 2021"] ] ]> ∅);
        coordinator := tt;
        trace :=
          [ Printed "Query: What are the risk factors for Uber?";
            Submitted "What are the risk factors for Uber?";
            Printed ("Result: Answer to: What are the risk factors for Uber?" +:+ newline);
            Printed "Query: What was Lyft's revenue growth in 2021?";
            Submitted "What was Lyft's revenue growth in 2021?";
            Printed ("Result: Answer to: What was Lyft's revenue growth in 2021?"
                     +:+ newline) ] |}).
Proof.
  assert (Hanswered :
            answered answering_coordinator (meta_tools RAG_launcher) tt queries
              [ "Answer to: What are the risk factors for Uber?";
                "Answer to: What was Lyft's revenue growth in 2021?" ] tt).
  { eapply answered_cons; [reflexivity|].
    eapply answered_cons; [reflexivity|]. apply answered_nil. }
  exact (main_first_run string (list string) index_documents unit answering_coordinator
           ["Lyft 10-K for 2021"] ["Uber 10-K for 2021"]
           ["Lyft 10-K for 2021"] ["Uber 10-K for 2021"] _ tt (first_run tt)
           (or_introl eq_refl) eq_refl eq_refl eq_refl eq_refl Hanswered).
Defined.

Lemma main_script_prints_the_answer_witness :
  trace (snd (main_script no_repr yf_150 answering_coordinator ∅ (first_run tt)))
  = [ Submitted request; Printed ("Result: Answer to: " +:+ request) ].
Proof.
  assert (Hkey : load_dotenv ∅ (environ (first_run tt)) !! "OPENAI_API_KEY" = Some "sk-test")
    by reflexivity.
  assert (Hne : "sk-test" <> "") by discriminate.
  rewrite (main_script_prints_the_answer string (list string) unit answering_coordinator
             no_repr yf_150 ∅ "sk-test" ("Answer to: " +:+ request) tt (first_run tt)
             Hkey Hne eq_refl).
  reflexivity.
Defined.

(** RAG.py with a coordinator that answers once and then fails: the first
    request is answered and printed, the second is printed, submitted and
    ends the run. *)
Example RAG_script_with_a_tiring_coordinator :
  fst (RAG_script index_documents tiring_coordinator ∅ (restored_run 0%nat)) = Raise llm_error
  /\ trace (snd (RAG_script index_documents tiring_coordinator ∅ (restored_run 0%nat)))
     = [ Printed "Query: What are the risk factors for Uber?";
         Submitted "What are the risk factors for Uber?";
         Printed ("Result: Answer to: What are the risk factors for Uber?" +:+ newline);
         Printed "Query: What was Lyft's revenue growth in 2021?";
         Submitted "What was Lyft's revenue growth in 2021?" ].
Proof. split; vm_compute; reflexivity. Qed.

(** A frame with a single row: that row is the latest one. *)
Example get_analyst_recommendations_single_row :
  get_analyst_recommendations no_repr
    (yf_with ∅ (Some [upgrade_row "Buy" "2024-03-01"]) []) "AAPL" []
  = (Return "Latest analyst recommendation for AAPL: Buy as of 2024-03-01", []).
Proof. reflexivity. Qed.
